(** * PGA-backend: the class signup service of [src/index.js]

    A shallow embedding of the three routes of the Express application
    ([GET /classes], [GET /events], [POST /class-signup]) over an explicit
    model of the MongoDB collections they read and write, followed by the
    properties of the three routes.

    Conventions of the model.
    - A JavaScript string is the list of its UTF-16 code units ([jsstring]);
      [===] on strings is equality of these lists ([str_eqb]).  Texts of the
      program itself (messages, object keys) are Rocq strings.
    - A [Number] path of a stored document is missing, null or a number; a
      number is finite (a rational: every double is one), an infinity or NaN,
      and is compared as JavaScript compares numbers.
    - A [Date] is its millisecond count, in [Z].
    - A collection is the list of its documents in natural order: [findOne()]
      returns the head, [findOneAndUpdate] rewrites the first document that
      satisfies the query.
    - A store call may reject; the rejection is an input of the handler
      ([Faults]) and a rejected call leaves the collection as it was.
    - [he.decode], [isMobilePhone] and [String.prototype.toLowerCase] rest on
      large tables; the handlers are parametric in them (class [Libraries]),
      which records the two laws of [toLowerCase] that the properties use. *)

From Stdlib Require Import List String Ascii Bool Arith ZArith NArith QArith Lia.
From Stdlib Require Import Sorting.Sorted Sorting.Permutation.
Import ListNotations.

Close Scope Q_scope.
Set Warnings "-register-all".

Local Open Scope string_scope.
Local Open Scope list_scope.

(** ** JavaScript strings *)

Abbreviation jsstring := (list N).

(** The string a literal of the source denotes. *)
Definition js (s : string) : jsstring :=
  map N_of_ascii (list_ascii_of_string s).

Fixpoint str_eqb (a b : jsstring) : bool :=
  match a, b with
  | [], [] => true
  | x :: a', y :: b' => N.eqb x y && str_eqb a' b'
  | _, _ => false
  end.

Declare Scope js_scope.
Notation "a =? b" := (str_eqb a b) : js_scope.
Local Open Scope js_scope.

(** ** JavaScript numbers *)

Inductive JsNumber :=
| Finite (q : Q)
| PlusInfinity
| MinusInfinity
| NaN.

(** A [Number] path of a document read from the store. *)
Inductive NumberPath :=
| Undefined
| Null
| Num (x : JsNumber).

(** The conversion a comparison applies to its operands. *)
Definition ToNumber (v : NumberPath) : JsNumber :=
  match v with
  | Undefined => NaN
  | Null => Finite 0
  | Num x => x
  end.

(** [a <= b] on numbers; [a >= b] is [b <= a]. *)
Definition number_le (a b : JsNumber) : bool :=
  match a, b with
  | NaN, _ | _, NaN => false
  | MinusInfinity, _ => true
  | _, PlusInfinity => true
  | PlusInfinity, _ => false
  | _, MinusInfinity => false
  | Finite p, Finite q => Qle_bool p q
  end.

(** The [length] of an array, as a number. *)
Definition of_length (n : nat) : JsNumber := Finite (inject_Z (Z.of_nat n)).

(** ** validator.js sanitizers and validators used by the route *)

(** The class [\s] of JavaScript regular expressions: tab to carriage
    return, space, no-break space, U+1680, U+2000 to U+200A, the line and
    paragraph separators, U+202F, U+205F, U+3000 and U+FEFF. *)
Definition is_space (c : N) : bool :=
  (((9 <=? c) && (c <=? 13)) || (c =? 32) || (c =? 160) || (c =? 5760)
   || ((8192 <=? c) && (c <=? 8202)) || (c =? 8232) || (c =? 8233)
   || (c =? 8239) || (c =? 8287) || (c =? 12288) || (c =? 65279))%N.

Fixpoint ltrim (s : jsstring) : jsstring :=
  match s with
  | [] => []
  | c :: s' => if is_space c then ltrim s' else s
  end.

Fixpoint rtrim (s : jsstring) : jsstring :=
  match s with
  | [] => []
  | c :: s' =>
      match rtrim s' with
      | [] => if is_space c then [] else [c]
      | t => c :: t
      end
  end.

(** [trim(str)] is [rtrim(ltrim(str))]. *)
Definition trim (s : jsstring) : jsstring := rtrim (ltrim s).

(** [escape(str)] replaces, in this order, [&], the double quote, the
    apostrophe, [<], [>], [/], the backslash and the backquote by an entity.
    No replacement text holds a character a later pass replaces, so the
    passes amount to one substitution per code unit. *)
Definition escape_char (c : N) : jsstring :=
  if (c =? 38)%N then js "&amp;"
  else if (c =? 34)%N then js "&quot;"
  else if (c =? 39)%N then js "&#x27;"
  else if (c =? 60)%N then js "&lt;"
  else if (c =? 62)%N then js "&gt;"
  else if (c =? 47)%N then js "&#x2F;"
  else if (c =? 92)%N then js "&#x5C;"
  else if (c =? 96)%N then js "&#96;"
  else [c].

Definition escape (s : jsstring) : jsstring := flat_map escape_char s.

(** [isLength] counts the code units of the string less its variation
    selectors U+FE0E and U+FE0F and less one per surrogate pair. *)
Definition is_presentation_selector (c : N) : bool :=
  ((c =? 65038) || (c =? 65039))%N.

Definition is_high_surrogate (c : N) : bool := ((55296 <=? c) && (c <=? 56319))%N.

Definition is_low_surrogate (c : N) : bool := ((56320 <=? c) && (c <=? 57343))%N.

(** The matches of [/[\uD800-\uDBFF][\uDC00-\uDFFF]/g]. *)
Fixpoint surrogate_pairs (s : jsstring) : nat :=
  match s with
  | a :: tail =>
      match tail with
      | b :: rest =>
          if is_high_surrogate a && is_low_surrogate b
          then S (surrogate_pairs rest)
          else surrogate_pairs tail
      | [] => 0
      end
  | [] => 0
  end.

Definition counted_length (s : jsstring) : nat :=
  List.length s - List.length (filter is_presentation_selector s)
  - surrogate_pairs s.

(** [isLength({min, max})]. *)
Definition isLength (min max : nat) (s : jsstring) : bool :=
  ((min <=? counted_length s) && (counted_length s <=? max))%nat.

Definition first_char (s : jsstring) : option N :=
  match s with
  | [] => None
  | c :: _ => Some c
  end.

Fixpoint last_char (s : jsstring) : option N :=
  match s with
  | [] => None
  | [c] => Some c
  | _ :: s' => last_char s'
  end.

(** No white space at either end. *)
Definition trimmed (s : jsstring) : bool :=
  match first_char s, last_char s with
  | Some a, Some b => negb (is_space a) && negb (is_space b)
  | _, _ => true
  end.

(** The functions the model leaves open, with the two laws of [toLowerCase]
    the properties use: it is idempotent, and it puts no white space at an
    end of a string that has none there. *)
Class Libraries := {
  he_decode : jsstring -> jsstring;
  isMobilePhone : jsstring -> bool;
  toLowerCase : jsstring -> jsstring;
  toLowerCase_idempotent :
    forall s, toLowerCase (toLowerCase s) = toLowerCase s;
  toLowerCase_trimmed :
    forall s, trimmed s = true -> trimmed (toLowerCase s) = true
}.

(** ** Data model (the Mongoose schemas) *)

Record Signee := {
  childFirstName : jsstring;
  childLastName : jsstring;
  parentFirstName : jsstring;
  parentLastName : jsstring;
  parentPhoneNumber : jsstring
}.

(** [SessionSchema] and [ClassSchema].  [session_oid] and [class_oid] are
    the [_id] of the sub-document, as the 24 digits its JSON form shows;
    [class_id] is the path [id] of [ClassSchema]. *)
Record Session := {
  session_oid : jsstring;
  day : jsstring;
  time : jsstring;
  maxSignups : NumberPath;
  price : NumberPath;
  signees : list Signee
}.

Record Class_ := {
  class_oid : jsstring;
  name : jsstring;
  sessions : list Session;
  class_id : jsstring
}.

(** [GymnasticsSchema], shared by the models [Gymnastics] (collection
    [signups]) and [Upcoming] (collection [upcoming]). *)
Record Gymnastics := {
  classes : list Class_;
  season : jsstring
}.

Module Event.
Record t := {
  name : jsstring;
  date : Z;
  duration : Z
}.
End Event.

(** The three collections. *)
Record Db := {
  signups : list Gymnastics;
  upcoming : list Gymnastics;
  events : list Event.t
}.

(** Which of the awaited store calls of a handler reject (in call order). *)
Record Faults := {
  first_call_rejects : bool;
  second_call_rejects : bool
}.

Definition no_faults : Faults :=
  {| first_call_rejects := false; second_call_rejects := false |}.

(** ** JSON values and responses *)

Inductive json :=
| JNull
| JNum (q : Q)
| JStr (s : jsstring)
| JArr (l : list json)
| JObj (fields : list (string * json)).

(** [res.status(n).send(text)] and [res.status(n).json(value)]. *)
Inductive Response (A : Type) :=
| Send (status : nat) (text : string)
| Json (status : nat) (value : A).
Arguments Send {A} status text.
Arguments Json {A} status value.

Definition status {A} (r : Response A) : nat :=
  match r with Send n _ => n | Json n _ => n end.

(** Property lookup [o.k]. *)
Fixpoint get_field (k : string) (fields : list (string * json)) : option json :=
  match fields with
  | [] => None
  | (k', v) :: rest => if String.eqb k' k then Some v else get_field k rest
  end.

(** Object literal [{...o, k: v}]: an own key keeps its place and takes the
    new value, a new key goes last. *)
Fixpoint spread_with (fields : list (string * json)) (k : string) (v : json)
  : list (string * json) :=
  match fields with
  | [] => [(k, v)]
  | (k', v') :: rest =>
      if String.eqb k' k then (k', v) :: rest
      else (k', v') :: spread_with rest k v
  end.

(** A number in a JSON text: [NaN] and the infinities are written [null]. *)
Definition number_json (x : JsNumber) : json :=
  match x with
  | Finite q => JNum q
  | _ => JNull
  end.

(** A [Number] path in [toObject()]: a missing path gives no key. *)
Definition number_field (k : string) (v : NumberPath) : list (string * json) :=
  match v with
  | Undefined => []
  | Null => [(k, JNull)]
  | Num x => [(k, number_json x)]
  end.

(** ** The request body of [POST /class-signup] *)

Module Body.
Record t := {
  className : jsstring;
  day : jsstring;
  time : jsstring;
  signee : Signee
}.
End Body.

(** The sanitizers of the validation chains write their result back into
    [req.body]: [trim().escape()] on the seven text fields, [trim()] on the
    phone number. *)
Definition sanitize (raw : Body.t) : Body.t :=
  let clean s := escape (trim s) in
  let sg := Body.signee raw in
  {| Body.className := clean (Body.className raw);
     Body.day := clean (Body.day raw);
     Body.time := clean (Body.time raw);
     Body.signee :=
       {| childFirstName := clean (childFirstName sg);
          childLastName := clean (childLastName sg);
          parentFirstName := clean (parentFirstName sg);
          parentLastName := clean (parentLastName sg);
          parentPhoneNumber := trim (parentPhoneNumber sg) |} |}.

(** An element of [validationResult(req).array()]:
    [{type: "field", value, msg, path, location: "body"}]. *)
Record FieldError := {
  value : jsstring;
  msg : string;
  path : string
}.

Definition field_check (ok : bool) (v : jsstring) (p m : string)
  : list FieldError :=
  if ok then [] else [{| value := v; msg := m; path := p |}].

Definition error_json (e : FieldError) : json :=
  JObj [("type", JStr (js "field"));
        ("value", JStr (value e));
        ("msg", JStr (js (msg e)));
        ("path", JStr (js (path e)));
        ("location", JStr (js "body"))].

Section Routes.

Context {libs : Libraries}.

(** [validationResult(req).array()], on the sanitized body: the validators
    run after the sanitizers of their chain. *)
Definition validationResult (b : Body.t) : list FieldError :=
  let sg := Body.signee b in
  field_check (isLength 1 100 (Body.className b)) (Body.className b)
    "className" "Invalid value"
  ++ field_check (isLength 1 20 (Body.day b)) (Body.day b)
       "day" "Invalid value"
  ++ field_check (isLength 1 20 (Body.time b)) (Body.time b)
       "time" "Invalid value"
  ++ field_check (isLength 1 50 (childFirstName sg)) (childFirstName sg)
       "signee.childFirstName" "Invalid value"
  ++ field_check (isLength 1 50 (childLastName sg)) (childLastName sg)
       "signee.childLastName" "Invalid value"
  ++ field_check (isLength 1 50 (parentFirstName sg)) (parentFirstName sg)
       "signee.parentFirstName" "Invalid value"
  ++ field_check (isLength 1 50 (parentLastName sg)) (parentLastName sg)
       "signee.parentLastName" "Invalid value"
  ++ field_check (isMobilePhone (parentPhoneNumber sg)) (parentPhoneNumber sg)
       "signee.parentPhoneNumber" "Invalid phone number".

(** *** The update of [findOneAndUpdate] *)

(** Casting a pushed value to [SigneeSchema]: the [lowercase: true] setters
    of the four name paths. *)
Definition cast_signee (s : Signee) : Signee :=
  {| childFirstName := toLowerCase (childFirstName s);
     childLastName := toLowerCase (childLastName s);
     parentFirstName := toLowerCase (parentFirstName s);
     parentLastName := toLowerCase (parentLastName s);
     parentPhoneNumber := parentPhoneNumber s |}.

(** The query document
    [{"classes.name": n, "classes.sessions.day": d, "classes.sessions.time": t}]:
    each dotted path is satisfied by some array element of its own. *)
Definition matches_query (n d t : jsstring) (doc : Gymnastics) : bool :=
  existsb (fun c => name c =? n) (classes doc)
  && existsb (fun c => existsb (fun s => day s =? d) (sessions c)) (classes doc)
  && existsb (fun c => existsb (fun s => time s =? t) (sessions c)) (classes doc).

Definition session_filter (d t : jsstring) (s : Session) : bool :=
  (day s =? d) && (time s =? t).

Definition push_signee (sg : Signee) (s : Session) : Session :=
  {| session_oid := session_oid s; day := day s; time := time s;
     maxSignups := maxSignups s; price := price s;
     signees := signees s ++ [sg] |}.

Definition push_in_sessions (d t : jsstring) (sg : Signee) (l : list Session)
  : list Session :=
  map (fun s => if session_filter d t s then push_signee sg s else s) l.

Definition push_in_class (d t : jsstring) (sg : Signee) (c : Class_) : Class_ :=
  {| class_oid := class_oid c;
     name := name c;
     sessions := push_in_sessions d t sg (sessions c);
     class_id := class_id c |}.

(** [$push] on ["classes.$[cls].sessions.$[session].signees"] with the array
    filters [{"cls.name": n}] and [{"session.day": d, "session.time": t}]:
    every element that passes its filter is updated. *)
Definition push_filtered (n d t : jsstring) (sg : Signee) (doc : Gymnastics)
  : Gymnastics :=
  {| classes :=
       map (fun c => if name c =? n then push_in_class d t sg c else c)
           (classes doc);
     season := season doc |}.

Fixpoint findOneAndUpdate (q : Gymnastics -> bool) (upd : Gymnastics -> Gymnastics)
    (coll : list Gymnastics) : list Gymnastics :=
  match coll with
  | [] => []
  | doc :: rest =>
      if q doc then upd doc :: rest else doc :: findOneAndUpdate q upd rest
  end.

Definition set_signups (db : Db) (coll : list Gymnastics) : Db :=
  {| signups := coll; upcoming := upcoming db; events := events db |}.

(** *** [POST /class-signup] *)

Definition server_error {A} : Response A := Send 500 "Server error".

Definition signup_successful : Response json :=
  Json 200 (JObj [("message", JStr (js "Signup successful"))]).

(** The [try] block of the handler (lines 163-214), on a validated body. *)
Definition register (db : Db) (f : Faults) (b : Body.t) : Response json * Db :=
  if first_call_rejects f then (server_error, db) else
  match head (signups db) with
  | None => (Send 500 "No class data found", db)
  | Some dbEntry =>
      let decodedClassName := he_decode (Body.className b) in
      match find (fun c => name c =? decodedClassName) (classes dbEntry) with
      | None => (Send 404 "Class not found", db)
      | Some classItem =>
          match find (fun s => (day s =? Body.day b) && (time s =? Body.time b))
                     (sessions classItem) with
          | None => (Send 404 "Session not found", db)
          | Some session =>
              let signeeFirstName := toLowerCase (childFirstName (Body.signee b)) in
              let signeeLastName := toLowerCase (childLastName (Body.signee b)) in
              let alreadySignedUp :=
                existsb (fun s => (childFirstName s =? signeeFirstName)
                                  && (childLastName s =? signeeLastName))
                        (signees session) in
              if alreadySignedUp then (Send 400 "Already signed up", db) else
              if number_le (ToNumber (maxSignups session))
                   (of_length (List.length (signees session)))
              then (Send 400 "Session is full", db) else
              if second_call_rejects f then (server_error, db) else
              (signup_successful,
               set_signups db
                 (findOneAndUpdate
                    (matches_query decodedClassName (Body.day b) (Body.time b))
                    (push_filtered decodedClassName (Body.day b) (Body.time b)
                       (cast_signee (Body.signee b)))
                    (signups db)))
          end
      end
  end.

(** The route: validation chains, then the handler. *)
Definition post_class_signup (db : Db) (f : Faults) (raw : Body.t)
  : Response json * Db :=
  let body := sanitize raw in
  let errors := validationResult body in
  match errors with
  | _ :: _ => (Json 400 (JObj [("errors", JArr (map error_json errors))]), db)
  | [] => register db f body
  end.

End Routes.

(** ** [GET /classes] *)

(** [toObject()] of the sub-documents: the [_id] that Mongoose gives to the
    sub-documents of [SessionSchema] and [ClassSchema] (not to the signees,
    [_id: false]), then the paths of the schema.  A [Number] path that is
    not stored has no key.  Objects are read by key ([get_field],
    [at_path]), so the order of the keys plays no part. *)
Definition signee_toObject (s : Signee) : json :=
  JObj [("childFirstName", JStr (childFirstName s));
        ("childLastName", JStr (childLastName s));
        ("parentFirstName", JStr (parentFirstName s));
        ("parentLastName", JStr (parentLastName s));
        ("parentPhoneNumber", JStr (parentPhoneNumber s))].

Definition session_toObject (s : Session) : list (string * json) :=
  [("_id", JStr (session_oid s));
   ("day", JStr (day s)); ("time", JStr (time s))]
  ++ number_field "maxSignups" (maxSignups s)
  ++ number_field "price" (price s)
  ++ [("signees", JArr (map signee_toObject (signees s)))].

Definition class_toObject (c : Class_) : list (string * json) :=
  [("_id", JStr (class_oid c));
   ("name", JStr (name c));
   ("sessions", JArr (map (fun s => JObj (session_toObject s)) (sessions c)));
   ("id", JStr (class_id c))].

(** [{...session.toObject(), signees: session.signees.length}]. *)
Definition session_with_count (session : Session) : json :=
  JObj (spread_with (session_toObject session) "signees"
          (number_json (of_length (List.length (signees session))))).

(** [{...cls.toObject(), sessions: cls.sessions.map(...)}]. *)
Definition class_with_counts (cls : Class_) : json :=
  JObj (spread_with (class_toObject cls) "sessions"
          (JArr (map session_with_count (sessions cls)))).

Definition classes_with_counts (entry : Gymnastics) : list json :=
  map class_with_counts (classes entry).

Definition catalog_view (entry : Gymnastics) : json :=
  JObj [("season", JStr (season entry));
        ("classes", JArr (classes_with_counts entry))].

(** Both [findOne()] calls are awaited before either result is tested. *)
Definition get_classes (db : Db) (f : Faults) : Response json :=
  if first_call_rejects f then server_error else
  if second_call_rejects f then server_error else
  match head (signups db) with
  | None => Send 404 "Signups not found"
  | Some signupsEntry =>
      match head (upcoming db) with
      | None => Send 404 "Upcoming classes not found"
      | Some upcomingEntry =>
          Json 200 (JObj [("signups", catalog_view signupsEntry);
                          ("upcoming", catalog_view upcomingEntry)])
      end
  end.

(** ** [GET /events] *)

(** [.sort({date: 1})] is the store's work: an ascending, stable sort on the
    [date] path, here by insertion. *)
Fixpoint insert_by_date (e : Event.t) (l : list Event.t) : list Event.t :=
  match l with
  | [] => [e]
  | x :: rest =>
      if (Event.date e <=? Event.date x)%Z then e :: l
      else x :: insert_by_date e rest
  end.

Definition sort_by_date (l : list Event.t) : list Event.t :=
  fold_right insert_by_date [] l.

Definition get_events (db : Db) (f : Faults) : Response (list Event.t) :=
  if first_call_rejects f then server_error
  else Json 200 (sort_by_date (events db)).

(** ** Vocabulary of the properties *)

(** A sequence of requests served one after the other. *)
Fixpoint serve `{Libraries} (db : Db) (reqs : list (Faults * Body.t)) : Db :=
  match reqs with
  | [] => db
  | (f, raw) :: rest => serve (snd (post_class_signup db f raw)) rest
  end.

(** The signups catalog is the document [Gymnastics.findOne()] returns. *)
Definition signups_catalog (db : Db) : option Gymnastics := head (signups db).

Definition find_class (n : jsstring) (doc : Gymnastics) : option Class_ :=
  find (fun c => name c =? n) (classes doc).

Definition find_session (d t : jsstring) (c : Class_) : option Session :=
  find (fun s => (day s =? d) && (time s =? t)) (sessions c).

(** The session a validated body names: lines 164-176 of the handler. *)
Definition located_session `{Libraries} (db : Db) (b : Body.t) : option Session :=
  match signups_catalog db with
  | None => None
  | Some doc =>
      match find_class (he_decode (Body.className b)) doc with
      | None => None
      | Some c => find_session (Body.day b) (Body.time b) c
      end
  end.

(** The test of line 181 for the child of body [b]. *)
Definition same_child `{Libraries} (b : Body.t) (s : Signee) : bool :=
  (childFirstName s =? toLowerCase (childFirstName (Body.signee b)))
  && (childLastName s =? toLowerCase (childLastName (Body.signee b))).

(** The test of line 190: [session.signees.length >= session.maxSignups]. *)
Definition session_full (s : Session) : bool :=
  number_le (ToNumber (maxSignups s)) (of_length (List.length (signees s))).

(** [session.signees.length <= session.maxSignups], as JavaScript decides
    it: false of a session without [maxSignups]. *)
Definition within_capacity (s : Session) : bool :=
  number_le (of_length (List.length (signees s))) (ToNumber (maxSignups s)).

Definition catalog_within_capacity (doc : Gymnastics) : bool :=
  forallb (fun c => forallb within_capacity (sessions c)) (classes doc).

(** A number without fractional part (infinities and NaN have none). *)
Definition whole_number (x : JsNumber) : bool :=
  match x with
  | Finite q => (Qnum q mod Zpos (Qden q) =? 0)%Z
  | _ => true
  end.

Definition catalog_whole_capacities (doc : Gymnastics) : bool :=
  forallb (fun c => forallb (fun s => whole_number (ToNumber (maxSignups s)))
                            (sessions c))
          (classes doc).

(** All sessions of a catalog, each with the name of its class, and their
    (class name, day, time) keys. *)
Definition all_sessions (doc : Gymnastics) : list (jsstring * Session) :=
  flat_map (fun c => map (pair (name c)) (sessions c)) (classes doc).

Definition session_key (cs : jsstring * Session)
  : jsstring * jsstring * jsstring :=
  (fst cs, day (snd cs), time (snd cs)).

Definition session_keys (doc : Gymnastics)
  : list (jsstring * jsstring * jsstring) :=
  map session_key (all_sessions doc).

(** A string that [toLowerCase] leaves as it is. *)
Definition is_lowercase `{Libraries} (s : jsstring) : bool := toLowerCase s =? s.

Definition signee_lowercase `{Libraries} (s : Signee) : bool :=
  is_lowercase (childFirstName s) && is_lowercase (childLastName s)
  && is_lowercase (parentFirstName s) && is_lowercase (parentLastName s).

(** Every signee a catalog stores, session after session. *)
Definition stored_signees (doc : Gymnastics) : list Signee :=
  flat_map (fun c => flat_map signees (sessions c)) (classes doc).

(** Whether a JSON value has, at any depth, an object with one of the paths
    of [SigneeSchema] as a key. *)
Definition signee_paths : list string :=
  ["childFirstName"; "childLastName"; "parentFirstName"; "parentLastName";
   "parentPhoneNumber"].

Fixpoint exposes_signee (j : json) : bool :=
  match j with
  | JNull | JNum _ | JStr _ => false
  | JArr l => existsb exposes_signee l
  | JObj fields =>
      existsb (fun kv => existsb (String.eqb (fst kv)) signee_paths
                         || exposes_signee (snd kv)) fields
  end.

(** Navigation in a JSON value: [o.k] and [a[i]]. *)
Inductive step :=
| Key (k : string)
| Index (i : nat).

Fixpoint at_path (p : list step) (j : json) : option json :=
  match p, j with
  | [], _ => Some j
  | Key k :: p', JObj fields =>
      match get_field k fields with
      | Some v => at_path p' v
      | None => None
      end
  | Index i :: p', JArr l =>
      match nth_error l i with
      | Some v => at_path p' v
      | None => None
      end
  | _, _ => None
  end.

(** What a reply shows of a [Number] path: nothing when it is missing. *)
Definition shown_number (v : NumberPath) : option json :=
  match v with
  | Undefined => None
  | Null => Some JNull
  | Num x => Some (number_json x)
  end.

(** A count in a reply. *)
Definition count_json (n : Z) : json := JNum (inject_Z n).

(** Ascending order on the [date] path. *)
Definition date_le (a b : Event.t) : Prop := (Event.date a <= Event.date b)%Z.

(** Every entity ends in one semicolon, and neither [trim] nor a character
    that [escape] keeps adds or removes one: the number of semicolons tells
    whether [escape] changed a value. *)
Definition semicolons (s : jsstring) : nat :=
  List.length (filter (N.eqb 59) s).

(** ** Instances of the library functions for the worked examples *)

(** [he.decode] on the entities [escape] writes.  Every [&] of a sanitized
    field starts one of them, so on the class names the handler decodes
    this is the whole of [he.decode]. *)
Definition entities : list (jsstring * N) :=
  [(js "&amp;", 38%N); (js "&quot;", 34%N); (js "&#x27;", 39%N);
   (js "&lt;", 60%N); (js "&gt;", 62%N); (js "&#x2F;", 47%N);
   (js "&#x5C;", 92%N); (js "&#96;", 96%N)].

Fixpoint starts_with (p s : jsstring) : bool :=
  match p, s with
  | [], _ => true
  | a :: p', b :: s' => N.eqb a b && starts_with p' s'
  | _ :: _, [] => false
  end.

Fixpoint decode_from (skip : nat) (s : jsstring) : jsstring :=
  match s with
  | [] => []
  | c :: s' =>
      match skip with
      | S k => decode_from k s'
      | O =>
          match find (fun e => starts_with (fst e) s) entities with
          | Some (e, c') => c' :: decode_from (List.length e - 1) s'
          | None => c :: decode_from 0 s'
          end
      end
  end.

Definition decode_entities (s : jsstring) : jsstring := decode_from 0 s.

Definition is_digit (c : N) : bool := ((48 <=? c) && (c <=? 57))%N.

(** Ten-digit national numbers: among the numbers [isMobilePhone] accepts
    (its [en-US] pattern), enough for the examples. *)
Definition ten_digits (s : jsstring) : bool :=
  (List.length s =? 10)%nat && forallb is_digit s
  && match s with
     | a :: _ :: _ :: b :: _ => ((50 <=? a) && (50 <=? b))%N
     | _ => false
     end.

(** [toLowerCase] on the code units below 256 and the Greek letters U+0391
    to U+03CB, enough for the examples: a capital moves up by 32, and a
    capital sigma becomes the final sigma U+03C2 when a cased letter comes
    before it and none after it, case-ignorable characters apart. *)
Definition is_capital (c : N) : bool :=
  (((65 <=? c) && (c <=? 90))
   || ((192 <=? c) && (c <=? 222) && negb (c =? 215))
   || ((913 <=? c) && (c <=? 939) && negb (c =? 930)))%N.

Definition simple_lower (c : N) : N := if is_capital c then (c + 32)%N else c.

Definition cased (c : N) : bool :=
  (((65 <=? c) && (c <=? 90)) || ((97 <=? c) && (c <=? 122))
   || (c =? 170) || (c =? 181) || (c =? 186)
   || ((192 <=? c) && (c <=? 255) && negb (c =? 215) && negb (c =? 247))
   || ((913 <=? c) && (c <=? 971) && negb (c =? 930)))%N.

Definition case_ignorable (c : N) : bool :=
  existsb (N.eqb c) [39; 46; 58; 94; 96; 168; 173; 175; 180; 183; 184]%N.

Fixpoint cased_follows (s : jsstring) : bool :=
  match s with
  | [] => false
  | c :: s' => if case_ignorable c then cased_follows s' else cased c
  end.

Fixpoint lower_from (after_cased : bool) (s : jsstring) : jsstring :=
  match s with
  | [] => []
  | c :: s' =>
      (if (c =? 931)%N
       then if after_cased && negb (cased_follows s') then 962%N else 963%N
       else simple_lower c)
      :: lower_from (if case_ignorable c then after_cased else cased c) s'
  end.

Definition lowercase (s : jsstring) : jsstring := lower_from false s.

Definition example_libraries : Libraries.
Proof.
  refine {| he_decode := decode_entities;
            isMobilePhone := ten_digits;
            toLowerCase := lowercase;
            toLowerCase_idempotent := _;
            toLowerCase_trimmed := _ |}.
  - (* no capital is left, and without capitals nothing moves *)
    assert (Hstable : forall c, is_capital (simple_lower c) = false).
    { intros c. unfold simple_lower. destruct (is_capital c) eqn:E; [|exact E].
      unfold is_capital in *.
      repeat rewrite ?orb_true_iff, ?andb_true_iff, ?negb_true_iff,
        ?N.leb_le, ?N.eqb_neq in E.
      apply not_true_is_false. intros F.
      repeat rewrite ?orb_true_iff, ?andb_true_iff, ?negb_true_iff,
        ?N.leb_le, ?N.eqb_neq in F.
      lia. }
    assert (Hout : forall s st, forallb (fun c => negb (is_capital c))
                                  (lower_from st s) = true).
    { induction s as [|c s IH]; intros st; [reflexivity|].
      cbn [lower_from forallb]. rewrite IH, andb_true_r.
      destruct (c =? 931)%N; [|rewrite Hstable; reflexivity].
      destruct (st && negb (cased_follows s)); reflexivity. }
    assert (Hfix : forall s st, forallb (fun c => negb (is_capital c)) s = true ->
                                lower_from st s = s).
    { induction s as [|c s IH]; intros st H; [reflexivity|].
      cbn [forallb] in H. apply andb_true_iff in H as [Hc Hs].
      apply negb_true_iff in Hc. cbn [lower_from]. rewrite (IH _ Hs).
      destruct (N.eqb_spec c 931) as [->|_]; [discriminate Hc|].
      unfold simple_lower. rewrite Hc. reflexivity. }
    intros s. unfold lowercase. apply Hfix, Hout.
  - (* a letter is no white space, before or after *)
    assert (Hcap : forall c, is_capital c = true ->
                             is_space c = false /\ is_space (c + 32) = false).
    { intros c E. unfold is_capital in E.
      repeat rewrite ?orb_true_iff, ?andb_true_iff, ?negb_true_iff,
        ?N.leb_le, ?N.eqb_neq in E.
      split; apply not_true_is_false; intros F; unfold is_space in F;
        repeat rewrite ?orb_true_iff, ?andb_true_iff, ?N.leb_le, ?N.eqb_eq in F;
        lia. }
    assert (Hsp : forall c (b : bool),
               is_space (if (c =? 931)%N then if b then 962%N else 963%N
                         else simple_lower c) = is_space c).
    { intros c b. destruct (N.eqb_spec c 931) as [->|_];
        [destruct b; reflexivity|].
      unfold simple_lower. destruct (is_capital c) eqn:E; [|reflexivity].
      destruct (Hcap c E) as [-> ->]. reflexivity. }
    assert (Hlast : forall s st,
               option_map is_space (last_char (lower_from st s))
               = option_map is_space (last_char s)).
    { induction s as [|c s IH]; intros st; [reflexivity|].
      destruct s as [|c' s'].
      - cbn. f_equal. apply Hsp.
      - exact (IH (if case_ignorable c then st else cased c)). }
    intros s. unfold lowercase, trimmed.
    pose proof (Hlast s false) as HL.
    destruct s as [|c s]; [reflexivity|].
    cbn [lower_from first_char]. cbn [lower_from] in HL. rewrite Hsp.
    destruct (last_char (_ :: lower_from _ s)) as [a|],
             (last_char (c :: s)) as [b|]; cbn in HL; try discriminate;
      [|reflexivity].
    injection HL as ->. auto.
Defined.

(** ** Worked example: the catalog of the specification

    Class "Tumbling" with one session (Mon, 4:00pm) of two places. *)

Definition child_named (first last : jsstring) : Signee :=
  {| childFirstName := first; childLastName := last;
     parentFirstName := js "Pat"; parentLastName := last;
     parentPhoneNumber := js "4155552671" |}.

Definition child (first last : string) : Signee :=
  child_named (js first) (js last).

Definition oid (last : string) : jsstring :=
  js ("65f1c0de9a3b4c5d6e7f80" ++ last).

Definition monday (places : Q) (l : list Signee) : Session :=
  {| session_oid := oid "a1"; day := js "Mon"; time := js "4:00pm";
     maxSignups := Num (Finite places); price := Num (Finite 40);
     signees := l |}.

(** A second session on the same day and at the same time. *)
Definition monday_twin (places : Q) (l : list Signee) : Session :=
  {| session_oid := oid "a2"; day := js "Mon"; time := js "4:00pm";
     maxSignups := Num (Finite places); price := Num (Finite 40);
     signees := l |}.

Definition tumbling (l : list Session) : Class_ :=
  {| class_oid := oid "c1"; name := js "Tumbling"; sessions := l;
     class_id := js "tumbling" |}.

Definition catalog (l : list Class_) : Gymnastics :=
  {| classes := l; season := js "Fall" |}.

Definition gym (l : list Session) : Db :=
  {| signups := [catalog [tumbling l]];
     upcoming := [catalog []];
     events := [] |}.

Definition signup (cls d t : string) (s : Signee) : Body.t :=
  {| Body.className := js cls; Body.day := js d; Body.time := js t;
     Body.signee := s |}.

Definition monday_signup (s : Signee) : Body.t :=
  signup "Tumbling" "Mon" "4:00pm" s.

Definition ana : Signee := child "Ana" "Lee".
Definition ana_again : Signee := child "ana" "LEE".
Definition ben : Signee := child "Ben" "Kim".
Definition cy : Signee := child "Cy" "Fox".

(** The signees as the example instance of [toLowerCase] stores them. *)
Definition stored (s : Signee) : Signee := @cast_signee example_libraries s.

(** The catalog of the specification's example, empty. *)
Definition opening_day : Db := gym [monday 2 []].

(** Two sessions of the class on the same day and time, the second full. *)
Definition twin_sessions : Db :=
  gym [monday 2 []; monday_twin 1 [stored cy]].

(** A session whose capacity is not a whole number. *)
Definition one_and_a_half : Db := gym [monday (3 # 2) [stored cy]].

(** A session without [maxSignups]. *)
Definition unbounded : Session :=
  {| session_oid := oid "a3"; day := js "Mon"; time := js "4:00pm";
     maxSignups := Undefined; price := Num (Finite 40);
     signees := [stored cy; stored ben] |}.

(** A signee seeded with capital letters. *)
Definition seeded : Db := gym [monday 2 [ana]].

(** A session whose day holds a character that [escape] replaces. *)
Definition two_days (last d : string) : Session :=
  {| session_oid := oid last; day := js d; time := js "4:00pm";
     maxSignups := Num (Finite 2); price := Num (Finite 40); signees := [] |}.

Definition two_days_signup : Body.t :=
  signup "Tumbling" "Mon & Wed" "4:00pm" ana.

(** Two spellings of one Greek first name, in capitals and in small
    letters, with an apostrophe after the sigma. *)
Definition capital_sigma : Signee :=
  child_named [913; 931; 39; 913]%N (js "Lee").

Definition small_sigma : Signee :=
  child_named [945; 963; 39; 945]%N (js "Lee").

Definition meet (n : string) (d : Z) : Event.t :=
  {| Event.name := js n; Event.date := d; Event.duration := 2 |}.

Definition calendar : Db :=
  {| signups := []; upcoming := [];
     events := [meet "Spring show" 1714550400000;
                meet "Open house" 1704067200000;
                meet "Winter meet" 1706745600000] |}.

(** ** Vocabulary of the further properties *)

(** The two lookups of lines 168-175 in one catalog. *)
Definition locate (n d t : jsstring) (doc : Gymnastics) : option Session :=
  match find_class n doc with
  | None => None
  | Some c => find_session d t c
  end.

(** The (class name, day, time) a validated body names. *)
Definition body_key `{Libraries} (b : Body.t) : jsstring * jsstring * jsstring :=
  (he_decode (Body.className b), Body.day b, Body.time b).

Definition key_eq_dec (x y : jsstring * jsstring * jsstring)
  : {x = y} + {x <> y}.
Proof. repeat decide equality. Defined.

(** The seven text fields of a body, with the path the validators report. *)
Definition text_fields (b : Body.t) : list (string * jsstring) :=
  [("className", Body.className b);
   ("day", Body.day b);
   ("time", Body.time b);
   ("signee.childFirstName", childFirstName (Body.signee b));
   ("signee.childLastName", childLastName (Body.signee b));
   ("signee.parentFirstName", parentFirstName (Body.signee b));
   ("signee.parentLastName", parentLastName (Body.signee b))].

(** The upper bound [isLength] puts on each text field. *)
Definition max_length (p : string) : nat :=
  if String.eqb p "className" then 100
  else if String.eqb p "day" || String.eqb p "time" then 20
  else 50.

(** A later state of a session, class or catalog that differs from an
    earlier one by signees added at the end of signee lists only. *)
Definition session_extends (s s' : Session) : Prop :=
  session_oid s' = session_oid s
  /\ day s' = day s /\ time s' = time s /\ maxSignups s' = maxSignups s
  /\ price s' = price s /\ exists added, signees s' = signees s ++ added.

Definition class_extends (c c' : Class_) : Prop :=
  class_oid c' = class_oid c /\ name c' = name c /\ class_id c' = class_id c
  /\ Forall2 session_extends (sessions c) (sessions c').

Definition catalog_extends (doc doc' : Gymnastics) : Prop :=
  season doc' = season doc /\ Forall2 class_extends (classes doc) (classes doc').

(** The identity of a signee in a session: the child's two names. *)
Definition child_names (s : Signee) : jsstring * jsstring :=
  (childFirstName s, childLastName s).

Definition no_child_twice (doc : Gymnastics) : Prop :=
  forall c s, In c (classes doc) -> In s (sessions c) ->
              NoDup (map child_names (signees s)).

(** The characters [escape] replaces, the ampersand apart. *)
Definition markup_char (c : N) : bool :=
  existsb (N.eqb c) [34; 39; 60; 62; 47; 92; 96]%N.

Definition free_of_markup (s : jsstring) : bool :=
  forallb (fun c => negb (markup_char c)) s.

(** A class whose name [escape] alters. *)
Definition parent_and_child (l : list Session) : Class_ :=
  {| class_oid := oid "c2"; name := js "Mom & Me"; sessions := l;
     class_id := js "mom-and-me" |}.

Definition family_signup : Body.t :=
  signup "  Mom & Me " "Mon" "4:00pm" ben.

Definition family_gym : Db :=
  {| signups := [catalog [tumbling [monday 2 []];
                          parent_and_child [monday_twin 1 []]]];
     upcoming := [catalog []];
     events := [] |}.

(** The four name fields of a signee. *)
Definition name_fields (s : Signee) : list jsstring :=
  [childFirstName s; childLastName s; parentFirstName s; parentLastName s].

(** The four name fields and the phone number of a signee that the update
    stores for the signee of a body. *)
Definition stored_for `{Libraries} (b : Body.t) (sg : Signee) : Prop :=
  childFirstName sg = toLowerCase (childFirstName (Body.signee b))
  /\ childLastName sg = toLowerCase (childLastName (Body.signee b))
  /\ parentFirstName sg = toLowerCase (parentFirstName (Body.signee b))
  /\ parentLastName sg = toLowerCase (parentLastName (Body.signee b))
  /\ parentPhoneNumber sg = parentPhoneNumber (Body.signee b).

(** Case analysis on a [Number] path, and on a code unit along the tests of
    [escape_char]. *)
Ltac each_number_path v :=
  destruct v as [| |[?| | |]].

Ltac escape_cases c :=
  unfold escape_char;
  destruct (N.eqb_spec c 38) as [->|?];
  [|destruct (N.eqb_spec c 34) as [->|?];
    [|destruct (N.eqb_spec c 39) as [->|?];
      [|destruct (N.eqb_spec c 60) as [->|?];
        [|destruct (N.eqb_spec c 62) as [->|?];
          [|destruct (N.eqb_spec c 47) as [->|?];
            [|destruct (N.eqb_spec c 92) as [->|?];
              [|destruct (N.eqb_spec c 96) as [->|?]]]]]]]].

(** * Properties *)

Section Properties.

Context {libs : Libraries}.

(** ** Equality of strings *)

Lemma str_eqb_eq a b : (a =? b) = true <-> a = b.
Proof.
  revert b. induction a as [|x a IH]; intros [|y b]; simpl;
    try (split; [discriminate|discriminate]); [tauto|].
  rewrite andb_true_iff, N.eqb_eq, IH. split.
  - intros [-> ->]. reflexivity.
  - intros [= -> ->]. auto.
Qed.

Lemma str_eqb_refl a : (a =? a) = true.
Proof. apply str_eqb_eq. reflexivity. Qed.

Lemma str_eqb_neq a b : (a =? b) = false <-> a <> b.
Proof.
  rewrite <- str_eqb_eq. destruct (a =? b); split; congruence.
Qed.

(** ** Lookups in a list and in its image *)

Lemma find_map_preserved {A} (p : A -> bool) (g : A -> A) (l : list A) :
  (forall x, p (g x) = p x) ->
  find p (map g l) = option_map g (find p l).
Proof.
  intros Hp. induction l as [|x l IH]; simpl; [reflexivity|].
  rewrite Hp. destruct (p x); [reflexivity|exact IH].
Qed.

Lemma find_none_iff {A} (p : A -> bool) (l : list A) :
  find p l = None <-> forall x, In x l -> p x = false.
Proof.
  split.
  - intros Hf x Hin. exact (find_none p l Hf x Hin).
  - intros Hall. induction l as [|x l IH]; simpl; [reflexivity|].
    rewrite (Hall x (or_introl eq_refl)). apply IH.
    intros y Hy. apply Hall. right. exact Hy.
Qed.

Lemma session_filter_true d t s :
  session_filter d t s = true <-> day s = d /\ time s = t.
Proof.
  unfold session_filter. rewrite andb_true_iff, !str_eqb_eq. tauto.
Qed.

(** ** The validation gate *)

Lemma post_valid db f raw :
  validationResult (sanitize raw) = [] ->
  post_class_signup db f raw = register db f (sanitize raw).
Proof. unfold post_class_signup. intros ->. reflexivity. Qed.

Lemma post_invalid db f raw :
  validationResult (sanitize raw) <> [] ->
  exists errs,
    post_class_signup db f raw = (Json 400 (JObj [("errors", JArr errs)]), db).
Proof.
  unfold post_class_signup. intros Hne.
  destruct (validationResult (sanitize raw)) as [|e errs]; [congruence|].
  eexists. reflexivity.
Qed.

(** ** The handler, path by path *)

Lemma matches_query_found n d t doc c s :
  find_class n doc = Some c ->
  find_session d t c = Some s ->
  matches_query n d t doc = true.
Proof.
  unfold find_class, find_session. intros Hc Hs.
  apply find_some in Hc as [Hc Hn]. apply find_some in Hs as [Hs Hdt].
  apply andb_true_iff in Hdt as [Hd Ht].
  unfold matches_query. rewrite !andb_true_iff. repeat split.
  - apply existsb_exists. exists c. auto.
  - apply existsb_exists. exists c. split; [exact Hc|].
    apply existsb_exists. exists s. auto.
  - apply existsb_exists. exists c. split; [exact Hc|].
    apply existsb_exists. exists s. auto.
Qed.

(** What a successful reply tells about the run of the handler. *)
Lemma register_success db f b db' :
  register db f b = (signup_successful, db') ->
  exists doc rest c s,
    signups db = doc :: rest
    /\ find_class (he_decode (Body.className b)) doc = Some c
    /\ find_session (Body.day b) (Body.time b) c = Some s
    /\ existsb (same_child b) (signees s) = false
    /\ session_full s = false
    /\ first_call_rejects f = false
    /\ second_call_rejects f = false
    /\ db' = set_signups db
               (push_filtered (he_decode (Body.className b)) (Body.day b)
                  (Body.time b) (cast_signee (Body.signee b)) doc :: rest).
Proof.
  unfold register, signup_successful, server_error.
  destruct (first_call_rejects f); [discriminate|].
  destruct (signups db) as [|doc rest] eqn:Hdb; simpl; [discriminate|].
  destruct (find _ (classes doc)) as [c|] eqn:Hc; [|discriminate].
  destruct (find _ (sessions c)) as [s|] eqn:Hs; [|discriminate].
  destruct (existsb _ (signees s)) eqn:Hdup; [discriminate|].
  destruct (number_le _ _) eqn:Hcap; [discriminate|].
  destruct (second_call_rejects f); [discriminate|].
  rewrite (matches_query_found _ _ _ _ _ _ Hc Hs).
  intros [= <-]. exists doc, rest, c, s. repeat split; auto.
Qed.

(** Every other reply leaves the database as it was. *)
Lemma register_failure db f b :
  fst (register db f b) <> signup_successful ->
  snd (register db f b) = db.
Proof.
  unfold register.
  destruct (first_call_rejects f); [reflexivity|].
  destruct (head (signups db)) as [doc|]; [|reflexivity].
  destruct (find _ (classes doc)) as [c|]; [|reflexivity].
  destruct (find _ (sessions c)) as [s|]; [|reflexivity].
  destruct (existsb _ (signees s)); [reflexivity|].
  destruct (number_le _ _); [reflexivity|].
  destruct (second_call_rejects f); [reflexivity|].
  simpl. congruence.
Qed.

(** The run of the handler once the session is located. *)
Lemma register_located db f b s :
  first_call_rejects f = false ->
  located_session db b = Some s ->
  register db f b =
    if existsb (same_child b) (signees s) then (Send 400 "Already signed up", db)
    else if session_full s
         then (Send 400 "Session is full", db)
         else if second_call_rejects f then (server_error, db)
              else (signup_successful,
                    set_signups db
                      (findOneAndUpdate
                         (matches_query (he_decode (Body.className b))
                            (Body.day b) (Body.time b))
                         (push_filtered (he_decode (Body.className b))
                            (Body.day b) (Body.time b)
                            (cast_signee (Body.signee b)))
                         (signups db))).
Proof.
  unfold located_session, signups_catalog, find_class, find_session, register.
  intros -> Hloc.
  destruct (head (signups db)) as [doc|]; [|discriminate].
  destruct (find _ (classes doc)) as [c|]; [|discriminate].
  rewrite Hloc. reflexivity.
Qed.

(** ** Failure paths *)

(** C4: for a request that passed validation, served while the store answers
    and the signups catalog exists: when no class of the catalog has the
    decoded class name, the reply is 404 "Class not found"; when the class
    found has no session with the (day, time) of the request, the reply is
    404 "Session not found"; the database is the same afterwards in both
    cases. *)
Theorem C4_class_or_session_not_found db f raw doc :
  validationResult (sanitize raw) = [] ->
  first_call_rejects f = false ->
  signups_catalog db = Some doc ->
  ((forall c, In c (classes doc) ->
              name c <> he_decode (Body.className (sanitize raw))) ->
   post_class_signup db f raw = (Send 404 "Class not found", db))
  /\ (forall c,
        find_class (he_decode (Body.className (sanitize raw))) doc = Some c ->
        (forall s, In s (sessions c) ->
                   ~ (day s = Body.day (sanitize raw)
                      /\ time s = Body.time (sanitize raw))) ->
        post_class_signup db f raw = (Send 404 "Session not found", db)).
Proof.
  intros Hval Hf Hdoc. rewrite (post_valid _ _ _ Hval).
  unfold signups_catalog in Hdoc. unfold register. rewrite Hf, Hdoc. split.
  - intros Hnone.
    assert (Hfind : find (fun c => name c =? he_decode (Body.className (sanitize raw)))
                         (classes doc) = None).
    { apply find_none_iff. intros c Hc. apply str_eqb_neq. auto. }
    rewrite Hfind. reflexivity.
  - intros c Hc Hnone. unfold find_class in Hc. rewrite Hc.
    assert (Hfind : find (fun s => (day s =? Body.day (sanitize raw))
                                   && (time s =? Body.time (sanitize raw)))
                         (sessions c) = None).
    { apply find_none_iff. intros s Hs.
      destruct (session_filter (Body.day (sanitize raw))
                  (Body.time (sanitize raw)) s) eqn:E; [|exact E].
      apply session_filter_true in E. destruct (Hnone s Hs E). }
    rewrite Hfind. reflexivity.
Qed.

(** C3 (amended): when the session a valid request names already holds at
    least [maxSignups] signees (the test of line 190 holds of it), the
    request is refused with status 400 and the database, hence the signee
    count, stays as it was.  The text is "Session is full" when the child is
    not yet in the session, and "Already signed up" when it is: the
    duplicate test runs before the capacity test. *)
Theorem C3_full_session_refused db f raw s :
  validationResult (sanitize raw) = [] ->
  first_call_rejects f = false ->
  located_session db (sanitize raw) = Some s ->
  session_full s = true ->
  post_class_signup db f raw =
    (Send 400 (if existsb (same_child (sanitize raw)) (signees s)
               then "Already signed up" else "Session is full"), db).
Proof.
  intros Hval Hf Hloc Hfull. rewrite (post_valid _ _ _ Hval).
  rewrite (register_located _ _ _ _ Hf Hloc).
  destruct (existsb _ (signees s)); [reflexivity|].
  rewrite Hfull. reflexivity.
Qed.

(** ** The update *)

Lemma push_filtered_located n d t sg doc c s :
  find_class n doc = Some c ->
  find_session d t c = Some s ->
  find_class n (push_filtered n d t sg doc) = Some (push_in_class d t sg c)
  /\ find_session d t (push_in_class d t sg c) = Some (push_signee sg s).
Proof.
  unfold find_class, find_session. intros Hc Hs. split.
  - unfold push_filtered. simpl. rewrite find_map_preserved.
    + rewrite Hc. simpl. apply find_some in Hc as [_ ->]. reflexivity.
    + intros x. simpl. destruct (name x =? n) eqn:E; simpl; congruence.
  - unfold push_in_class, push_in_sessions. simpl. rewrite find_map_preserved.
    + rewrite Hs. simpl. apply find_some in Hs as [_ Hs].
      unfold session_filter. rewrite Hs. reflexivity.
    + intros x. destruct (session_filter d t x); reflexivity.
Qed.

Lemma push_signee_changes sg s : push_signee sg s <> s.
Proof.
  intros E. apply (f_equal (fun x => List.length (signees x))) in E.
  simpl in E. rewrite length_app in E. simpl in E. lia.
Qed.

Lemma push_filtered_changes n d t sg doc c s :
  find_class n doc = Some c ->
  find_session d t c = Some s ->
  push_filtered n d t sg doc <> doc.
Proof.
  intros Hc Hs E.
  destruct (push_filtered_located n d t sg doc c s Hc Hs) as [Hc' Hs'].
  rewrite E, Hc in Hc'. injection Hc' as Hc'.
  rewrite <- Hc', Hs in Hs'. injection Hs' as Hs'.
  symmetry in Hs'. exact (push_signee_changes _ _ Hs').
Qed.

(** C5: a reply other than the success reply leaves the database as it was
    (validation errors, store rejection, missing catalog, class or session not
    found, duplicate, full session); the success reply comes with exactly one
    changed document, the head of the signups collection, every other document
    and collection being the same. *)
Theorem C5_mutation_only_on_success db f raw :
  (fst (post_class_signup db f raw) <> signup_successful ->
   snd (post_class_signup db f raw) = db)
  /\ (fst (post_class_signup db f raw) = signup_successful ->
      exists doc doc' rest,
        signups db = doc :: rest
        /\ signups (snd (post_class_signup db f raw)) = doc' :: rest
        /\ doc' <> doc
        /\ upcoming (snd (post_class_signup db f raw)) = upcoming db
        /\ events (snd (post_class_signup db f raw)) = events db).
Proof.
  unfold post_class_signup.
  destruct (validationResult (sanitize raw)) as [|e errs].
  - split; [apply register_failure|].
    intros Hok.
    destruct (register db f (sanitize raw)) as [r db'] eqn:Hreg. simpl in Hok.
    subst r. apply register_success in Hreg
      as (doc & rest & c & s & Hdb & Hc & Hs & _ & _ & _ & _ & ->).
    exists doc. eexists. exists rest. simpl. repeat split; auto.
    eapply push_filtered_changes; eassumption.
  - simpl. split; [reflexivity|discriminate].
Qed.

(** C10: on success the new head document is the old one with the cast
    signee appended to every session that passes the (day, time) filter in
    every class that passes the name filter, whatever their number; every
    other session, at every position, is the same as before. *)
Theorem C10_push_reaches_every_match db f raw db' :
  post_class_signup db f raw = (signup_successful, db') ->
  exists doc doc' rest,
    signups db = doc :: rest
    /\ signups db' = doc' :: rest
    /\ forall i j c s,
         nth_error (classes doc) i = Some c ->
         nth_error (sessions c) j = Some s ->
         exists c',
           nth_error (classes doc') i = Some c'
           /\ nth_error (sessions c') j =
                Some (if (name c =? he_decode (Body.className (sanitize raw)))
                         && session_filter (Body.day (sanitize raw))
                              (Body.time (sanitize raw)) s
                      then push_signee (cast_signee (Body.signee (sanitize raw))) s
                      else s).
Proof.
  unfold post_class_signup.
  destruct (validationResult (sanitize raw)); [|discriminate].
  intros Hreg. apply register_success in Hreg
    as (doc & rest & c0 & s0 & Hdb & _ & _ & _ & _ & _ & _ & ->).
  exists doc. eexists. exists rest. split; [exact Hdb|]. split; [reflexivity|].
  intros i j c s Hc Hs. unfold push_filtered. simpl.
  rewrite nth_error_map, Hc. simpl.
  destruct (name c =? _) eqn:Hn.
  - exists (push_in_class (Body.day (sanitize raw)) (Body.time (sanitize raw))
              (cast_signee (Body.signee (sanitize raw))) c).
    split; [reflexivity|]. simpl. unfold push_in_sessions.
    rewrite nth_error_map, Hs. reflexivity.
  - exists c. split; [reflexivity|exact Hs].
Qed.
(** ** Invariants of the signups catalog *)

Lemma NoDup_map_injective {A B} (g : A -> B) (l : list A) x y :
  NoDup (map g l) -> In x l -> In y l -> g x = g y -> x = y.
Proof.
  induction l as [|a l IH]; simpl; [tauto|].
  intros Hnd Hx Hy E. inversion Hnd as [|? ? Hnotin Hnd']; subst.
  destruct Hx as [->|Hx], Hy as [->|Hy]; auto.
  - exfalso. apply Hnotin. rewrite E. apply in_map. exact Hy.
  - exfalso. apply Hnotin. rewrite <- E. apply in_map. exact Hx.
Qed.

Lemma in_all_sessions doc c s :
  In c (classes doc) -> In s (sessions c) -> In (name c, s) (all_sessions doc).
Proof.
  intros Hc Hs. unfold all_sessions. apply in_flat_map.
  exists c. split; [exact Hc|]. apply in_map. exact Hs.
Qed.

Lemma session_keys_push n d t sg doc :
  session_keys (push_filtered n d t sg doc) = session_keys doc.
Proof.
  unfold session_keys, all_sessions, push_filtered. simpl.
  induction (classes doc) as [|c l IH]; simpl; [reflexivity|].
  rewrite !map_app, IH. f_equal.
  destruct (name c =? n); [|reflexivity].
  simpl. unfold push_in_sessions. rewrite !map_map. apply map_ext.
  intros s. unfold session_key. simpl.
  destruct (session_filter d t s); reflexivity.
Qed.

Lemma catalog_within_capacity_spec doc :
  catalog_within_capacity doc = true <->
  forall c s, In c (classes doc) -> In s (sessions c) ->
              within_capacity s = true.
Proof.
  unfold catalog_within_capacity. rewrite forallb_forall. split.
  - intros H c s Hc Hs. specialize (H c Hc). rewrite forallb_forall in H.
    exact (H s Hs).
  - intros H c Hc. apply forallb_forall. intros s Hs. exact (H c s Hc Hs).
Qed.

Lemma catalog_whole_capacities_spec doc :
  catalog_whole_capacities doc = true <->
  forall c s, In c (classes doc) -> In s (sessions c) ->
              whole_number (ToNumber (maxSignups s)) = true.
Proof.
  unfold catalog_whole_capacities. rewrite forallb_forall. split.
  - intros H c s Hc Hs. specialize (H c Hc). rewrite forallb_forall in H.
    exact (H s Hs).
  - intros H c Hc. apply forallb_forall. intros s Hs. exact (H c s Hc Hs).
Qed.

(** Below a whole number there is room for one more. *)
Lemma room_for_one_more x n :
  whole_number x = true ->
  number_le (of_length n) x = true ->
  number_le x (of_length n) = false ->
  number_le (of_length (S n)) x = true.
Proof.
  destruct x as [[a b]| | |]; try (cbn; congruence).
  unfold whole_number, number_le, of_length, Qle_bool, inject_Z.
  cbn [Qnum Qden]. intros Hwhole _ Hroom.
  apply Z.eqb_eq in Hwhole. apply Z.leb_gt in Hroom. apply Z.leb_le.
  apply Z.mod_divide in Hwhole; [|discriminate].
  destruct Hwhole as [k ->]. rewrite Nat2Z.inj_succ.
  pose proof (Pos2Z.is_pos b) as Hb.
  assert (Z.of_nat n < k)%Z by nia. nia.
Qed.

(** A session of the updated document is an old one, or an old one that
    passed both filters and received the signee. *)
Lemma push_filtered_sessions n d t sg doc c' s' :
  In c' (classes (push_filtered n d t sg doc)) ->
  In s' (sessions c') ->
  exists c s,
    In c (classes doc) /\ In s (sessions c) /\ name c' = name c
    /\ (s' = s
        \/ (name c = n /\ day s = d /\ time s = t /\ s' = push_signee sg s)).
Proof.
  unfold push_filtered. simpl. intros Hc' Hs'.
  apply in_map_iff in Hc' as (c & <- & Hc).
  destruct (name c =? n) eqn:Hn.
  - simpl in Hs'. unfold push_in_sessions in Hs'.
    apply in_map_iff in Hs' as (s & <- & Hs).
    exists c, s. repeat split; auto.
    destruct (session_filter d t s) eqn:Hf; [right|left; reflexivity].
    apply session_filter_true in Hf as [Hd Ht].
    apply str_eqb_eq in Hn. auto.
  - exists c, s'. auto.
Qed.

Lemma push_keeps_capacity n d t sg doc c s :
  NoDup (session_keys doc) ->
  catalog_whole_capacities doc = true ->
  catalog_within_capacity doc = true ->
  find_class n doc = Some c ->
  find_session d t c = Some s ->
  session_full s = false ->
  catalog_within_capacity (push_filtered n d t sg doc) = true.
Proof.
  intros Hnd Hwhole Hcap Hc Hs Hroom.
  apply catalog_within_capacity_spec. intros c' s' Hc' Hs'.
  rewrite catalog_within_capacity_spec in Hcap.
  rewrite catalog_whole_capacities_spec in Hwhole.
  destruct (push_filtered_sessions _ _ _ _ _ _ _ Hc' Hs')
    as (c0 & s0 & Hc0 & Hs0 & _ & [->|(Hn & Hd & Ht & ->)]).
  - exact (Hcap c0 s0 Hc0 Hs0).
  - unfold find_class in Hc. apply find_some in Hc as [Hc Hname].
    unfold find_session in Hs. apply find_some in Hs as [Hs Hdt].
    apply str_eqb_eq in Hname. apply session_filter_true in Hdt as [Hd' Ht'].
    assert (E : (name c0, s0) = (name c, s)).
    { apply (NoDup_map_injective session_key (all_sessions doc)).
      - exact Hnd.
      - apply in_all_sessions; assumption.
      - apply in_all_sessions; assumption.
      - unfold session_key. simpl. congruence. }
    injection E as _ ->. unfold within_capacity. cbn [push_signee signees maxSignups].
    rewrite length_app. cbn [List.length]. rewrite Nat.add_1_r.
    apply room_for_one_more.
    + exact (Hwhole c s Hc Hs).
    + exact (Hcap c s Hc Hs).
    + exact Hroom.
Qed.

Lemma whole_capacities_push n d t sg doc :
  catalog_whole_capacities (push_filtered n d t sg doc)
  = catalog_whole_capacities doc.
Proof.
  unfold catalog_whole_capacities, push_filtered. cbn [classes].
  induction (classes doc) as [|c l IH]; [reflexivity|].
  cbn [map forallb]. rewrite IH. f_equal.
  destruct (name c =? n); [|reflexivity].
  cbn [push_in_class sessions]. unfold push_in_sessions.
  induction (sessions c) as [|s l' IH']; [reflexivity|].
  cbn [map forallb]. rewrite IH'. f_equal.
  destruct (session_filter d t s); reflexivity.
Qed.

(** One request either leaves the database as it was or is a success. *)
Lemma post_outcome db f raw :
  snd (post_class_signup db f raw) = db
  \/ post_class_signup db f raw =
       (signup_successful, snd (post_class_signup db f raw)).
Proof.
  unfold post_class_signup.
  destruct (validationResult (sanitize raw)); [|left; reflexivity].
  unfold register.
  destruct (first_call_rejects f); [left; reflexivity|].
  destruct (head (signups db)) as [doc|]; [|left; reflexivity].
  destruct (find _ (classes doc)) as [c|]; [|left; reflexivity].
  destruct (find _ (sessions c)) as [s|]; [|left; reflexivity].
  destruct (existsb _ (signees s)); [left; reflexivity|].
  destruct (number_le _ _); [left; reflexivity|].
  destruct (second_call_rejects f); [left; reflexivity|].
  right. reflexivity.
Qed.

Lemma post_success db f raw db' :
  post_class_signup db f raw = (signup_successful, db') ->
  register db f (sanitize raw) = (signup_successful, db').
Proof.
  unfold post_class_signup.
  destruct (validationResult (sanitize raw)); [auto|discriminate].
Qed.

(** An invariant of catalogs that each successful update keeps is kept by
    every sequence of requests. *)
Lemma serve_invariant (Inv : Gymnastics -> Prop) :
  (forall db f raw db' doc,
      post_class_signup db f raw = (signup_successful, db') ->
      signups_catalog db = Some doc -> Inv doc ->
      exists doc', signups_catalog db' = Some doc' /\ Inv doc') ->
  forall reqs db doc,
    signups_catalog db = Some doc -> Inv doc ->
    exists doc', signups_catalog (serve db reqs) = Some doc' /\ Inv doc'.
Proof.
  intros Hstep reqs. induction reqs as [|[f raw] reqs IH]; intros db doc Hdoc Hinv.
  - exists doc. auto.
  - simpl. destruct (post_outcome db f raw) as [E|E].
    + rewrite E. eapply IH; eassumption.
    + destruct (Hstep _ _ _ _ _ E Hdoc Hinv) as (doc' & Hdoc' & Hinv').
      eapply IH; eassumption.
Qed.

(** C1 (amended): if every session of the signups catalog holds at most
    [maxSignups] signees, every [maxSignups] is a whole number (or infinite)
    and no two sessions share class name, day and time, then after any
    sequence of requests served one after the other every session of the
    catalog holds at most [maxSignups] signees. *)
Theorem C1_capacity_kept_when_sessions_unique db reqs doc :
  signups_catalog db = Some doc ->
  catalog_within_capacity doc = true ->
  catalog_whole_capacities doc = true ->
  NoDup (session_keys doc) ->
  exists doc',
    signups_catalog (serve db reqs) = Some doc'
    /\ forall c s, In c (classes doc') -> In s (sessions c) ->
                   within_capacity s = true.
Proof.
  intros Hdoc Hcap Hwhole Hnd.
  destruct (serve_invariant
              (fun d => catalog_within_capacity d = true
                        /\ catalog_whole_capacities d = true
                        /\ NoDup (session_keys d)))
    with (reqs := reqs) (db := db) (doc := doc) as (doc' & Hdoc' & Hcap' & _);
    auto.
  - clear. intros db f raw db' doc Hok Hdoc (Hcap & Hwhole & Hnd).
    apply post_success, register_success in Hok
      as (doc0 & rest & c & s & Hdb & Hc & Hs & _ & Hroom & _ & _ & ->).
    unfold signups_catalog in Hdoc. rewrite Hdb in Hdoc. injection Hdoc as ->.
    eexists. split; [reflexivity|]. split; [|split].
    + eapply push_keeps_capacity; eassumption.
    + rewrite whole_capacities_push. exact Hwhole.
    + rewrite session_keys_push. exact Hnd.
  - exists doc'. split; [exact Hdoc'|].
    apply catalog_within_capacity_spec. exact Hcap'.
Qed.

(** ** Letter case *)

Lemma cast_signee_lowercase s : signee_lowercase (cast_signee s) = true.
Proof.
  unfold signee_lowercase, is_lowercase. simpl.
  rewrite !toLowerCase_idempotent, !str_eqb_refl. reflexivity.
Qed.

Lemma cast_signee_stored_for b : stored_for b (cast_signee (Body.signee b)).
Proof. unfold stored_for. simpl. repeat split. Qed.

Lemma stored_for_cast b sg : stored_for b sg -> sg = cast_signee (Body.signee b).
Proof.
  destruct sg. unfold stored_for, cast_signee. simpl.
  intros (-> & -> & -> & -> & ->). reflexivity.
Qed.

Lemma in_stored_signees doc sg :
  In sg (stored_signees doc) <->
  exists c s, In c (classes doc) /\ In s (sessions c) /\ In sg (signees s).
Proof.
  unfold stored_signees. rewrite in_flat_map. split.
  - intros (c & Hc & Hsg). apply in_flat_map in Hsg as (s & Hs & Hsg).
    exists c, s. auto.
  - intros (c & s & Hc & Hs & Hsg). exists c. split; [exact Hc|].
    apply in_flat_map. exists s. auto.
Qed.

(** The update stores nothing but the pushed signee. *)
Lemma push_filtered_signees n d t x doc sg :
  In sg (stored_signees (push_filtered n d t x doc)) ->
  In sg (stored_signees doc) \/ sg = x.
Proof.
  rewrite !in_stored_signees. intros (c' & s' & Hc' & Hs' & Hsg).
  destruct (push_filtered_sessions _ _ _ _ _ _ _ Hc' Hs')
    as (c0 & s0 & Hc0 & Hs0 & _ & [->|(_ & _ & _ & ->)]).
  - left. exists c0, s0. auto.
  - simpl in Hsg. apply in_app_or in Hsg as [Hsg|[<-|[]]].
    + left. exists c0, s0. auto.
    + right. reflexivity.
Qed.

(** The session a request names, after the update of a successful request
    for the same class, day and time. *)
Lemma located_after_success db f raw db' b :
  post_class_signup db f raw = (signup_successful, db') ->
  Body.className b = Body.className (sanitize raw) ->
  Body.day b = Body.day (sanitize raw) ->
  Body.time b = Body.time (sanitize raw) ->
  exists s,
    located_session db (sanitize raw) = Some s
    /\ existsb (same_child (sanitize raw)) (signees s) = false
    /\ located_session db' b
       = Some (push_signee (cast_signee (Body.signee (sanitize raw))) s).
Proof.
  intros Hok Hn Hd Ht.
  apply post_success, register_success in Hok
    as (doc & rest & c & s & Hdb & Hc & Hs & Hdup & _ & _ & _ & ->).
  destruct (push_filtered_located _ _ _
              (cast_signee (Body.signee (sanitize raw))) _ _ _ Hc Hs)
    as [Hc' Hs'].
  exists s. unfold located_session, signups_catalog. rewrite Hn, Hd, Ht, Hdb.
  cbn [head set_signups signups]. rewrite Hc, Hc'. auto.
Qed.

(** Where the signees of the catalog come from, after a sequence of
    requests. *)
Lemma serve_stored_signees reqs : forall db doc,
  signups_catalog db = Some doc ->
  exists doc',
    signups_catalog (serve db reqs) = Some doc'
    /\ forall sg,
         In sg (stored_signees doc') ->
         In sg (stored_signees doc)
         \/ exists f raw,
              In (f, raw) reqs
              /\ validationResult (sanitize raw) = []
              /\ sg = cast_signee (Body.signee (sanitize raw)).
Proof.
  induction reqs as [|[f raw] reqs IH]; intros db doc Hdoc.
  - exists doc. auto.
  - cbn [serve]. destruct (post_outcome db f raw) as [E|E].
    + rewrite E. destruct (IH db doc Hdoc) as (doc' & Hdoc' & Hall).
      exists doc'. split; [exact Hdoc'|]. intros sg Hsg.
      destruct (Hall sg Hsg) as [H|(f' & raw' & Hin & Hv & ->)]; [auto|].
      right. exists f', raw'. simpl. auto.
    + assert (Hval : validationResult (sanitize raw) = []).
      { unfold post_class_signup in E.
        destruct (validationResult (sanitize raw)); [reflexivity|discriminate]. }
      rewrite E. cbn [snd].
      apply post_success, register_success in E
        as (doc0 & rest & c & s & Hdb & _ & _ & _ & _ & _ & _ & ->).
      unfold signups_catalog in Hdoc. rewrite Hdb in Hdoc. injection Hdoc as ->.
      destruct (IH (set_signups db
                      (push_filtered (he_decode (Body.className (sanitize raw)))
                         (Body.day (sanitize raw)) (Body.time (sanitize raw))
                         (cast_signee (Body.signee (sanitize raw))) doc :: rest))
                  _ eq_refl) as (doc' & Hdoc' & Hall).
      exists doc'. split; [exact Hdoc'|]. intros sg Hsg.
      destruct (Hall sg Hsg) as [H|(f' & raw' & Hin & Hv & ->)].
      * apply push_filtered_signees in H as [H| ->]; [auto|].
        right. exists f, raw. simpl. auto.
      * right. exists f', raw'. simpl. auto.
Qed.

(** C6 (amended): on success the session the request names ends with one
    more signee, whose four name fields are [toLowerCase] of the name fields
    of the request as the handler received them, hence in lowercase, and
    whose phone number is the one of the request; and after any sequence of
    requests every signee the signups catalog stores either was stored before
    the sequence or is such a signee of a request of the sequence that
    passed validation. *)
Theorem C6_names_stored_in_lowercase db :
  (forall f raw db',
      post_class_signup db f raw = (signup_successful, db') ->
      exists s s' sg,
        located_session db (sanitize raw) = Some s
        /\ located_session db' (sanitize raw) = Some s'
        /\ signees s' = signees s ++ [sg]
        /\ stored_for (sanitize raw) sg
        /\ signee_lowercase sg = true)
  /\ (forall reqs doc,
        signups_catalog db = Some doc ->
        exists doc',
          signups_catalog (serve db reqs) = Some doc'
          /\ forall sg,
               In sg (stored_signees doc') ->
               In sg (stored_signees doc)
               \/ exists f raw,
                    In (f, raw) reqs
                    /\ validationResult (sanitize raw) = []
                    /\ stored_for (sanitize raw) sg
                    /\ signee_lowercase sg = true).
Proof.
  split.
  - intros f raw db' Hok.
    destruct (located_after_success _ _ _ _ (sanitize raw) Hok)
      as (s & Hloc & _ & Hloc'); auto.
    exists s. do 2 eexists. split; [exact Hloc|]. split; [exact Hloc'|].
    split; [reflexivity|]. split.
    + apply cast_signee_stored_for.
    + apply cast_signee_lowercase.
  - intros reqs doc Hdoc.
    destruct (serve_stored_signees reqs db doc Hdoc) as (doc' & Hdoc' & Hall).
    exists doc'. split; [exact Hdoc'|]. intros sg Hsg.
    destruct (Hall sg Hsg) as [H|(f & raw & Hin & Hv & ->)]; [auto|].
    right. exists f, raw. repeat split; auto.
    apply cast_signee_lowercase.
Qed.

Lemma filter_none {A} (p : A -> bool) (l : list A) :
  existsb p l = false -> filter p l = [].
Proof.
  induction l as [|x l IH]; simpl; [reflexivity|].
  destruct (p x); simpl; [discriminate|exact IH].
Qed.

Lemma same_child_cast b : same_child b (cast_signee (Body.signee b)) = true.
Proof. unfold same_child. simpl. rewrite !str_eqb_refl. reflexivity. Qed.

(** The duplicate test sees the child names of the body through
    [toLowerCase] only. *)
Lemma same_child_same_case b1 b2 s :
  toLowerCase (childFirstName (Body.signee b2))
  = toLowerCase (childFirstName (Body.signee b1)) ->
  toLowerCase (childLastName (Body.signee b2))
  = toLowerCase (childLastName (Body.signee b1)) ->
  same_child b2 s = same_child b1 s.
Proof. unfold same_child. intros -> ->. reflexivity. Qed.

(** C2 (amended): after a successful registration, a second valid request
    for the same class, day and time whose child first and last names, as
    the handler receives them (trimmed and escaped), are those of the first
    after [toLowerCase] is refused with 400 "Already signed up" and leaves
    the database as it was; the session holds exactly one signee with that
    pair of names. *)
Theorem C2_second_signup_is_duplicate db f1 raw1 db1 f2 raw2 :
  post_class_signup db f1 raw1 = (signup_successful, db1) ->
  Body.className raw2 = Body.className raw1 ->
  Body.day raw2 = Body.day raw1 ->
  Body.time raw2 = Body.time raw1 ->
  toLowerCase (childFirstName (Body.signee (sanitize raw2)))
  = toLowerCase (childFirstName (Body.signee (sanitize raw1))) ->
  toLowerCase (childLastName (Body.signee (sanitize raw2)))
  = toLowerCase (childLastName (Body.signee (sanitize raw1))) ->
  validationResult (sanitize raw2) = [] ->
  first_call_rejects f2 = false ->
  post_class_signup db1 f2 raw2 = (Send 400 "Already signed up", db1)
  /\ exists s,
       located_session db1 (sanitize raw2) = Some s
       /\ List.length (filter (same_child (sanitize raw2)) (signees s)) = 1.
Proof.
  intros Hok Hn Hd Ht Hfirst Hlast Hval Hf.
  assert (Hsame : forall s,
             same_child (sanitize raw2) s = same_child (sanitize raw1) s).
  { intros s. apply same_child_same_case; assumption. }
  destruct (located_after_success _ _ _ _ (sanitize raw2) Hok)
    as (s & _ & Hdup & Hloc); simpl; try congruence.
  assert (Hcount :
            filter (same_child (sanitize raw2))
                   (signees (push_signee
                               (cast_signee (Body.signee (sanitize raw1))) s))
            = [cast_signee (Body.signee (sanitize raw1))]).
  { simpl. rewrite filter_app.
    rewrite (filter_ext _ _ Hsame), (filter_none _ _ Hdup). simpl.
    rewrite Hsame, same_child_cast. reflexivity. }
  split.
  - rewrite (post_valid _ _ _ Hval), (register_located _ _ _ _ Hf Hloc).
    destruct (existsb (same_child (sanitize raw2)) _) eqn:Hex; [reflexivity|].
    apply filter_none in Hex. rewrite Hcount in Hex. discriminate.
  - eexists. split; [exact Hloc|]. rewrite Hcount. reflexivity.
Qed.

(** ** [GET /events] *)

Lemma insert_by_date_perm e l : Permutation (e :: l) (insert_by_date e l).
Proof.
  induction l as [|x l IH]; simpl; [reflexivity|].
  destruct (Event.date e <=? Event.date x)%Z; [reflexivity|].
  rewrite perm_swap. apply perm_skip. exact IH.
Qed.

Lemma insert_by_date_sorted e l :
  Sorted date_le l -> Sorted date_le (insert_by_date e l).
Proof.
  induction 1 as [|x l Hs IH Hhd]; simpl.
  - repeat constructor.
  - destruct (Event.date e <=? Event.date x)%Z eqn:E.
    + apply Z.leb_le in E. repeat constructor; assumption.
    + apply Z.leb_gt in E. constructor; [exact IH|].
      destruct Hhd as [|y l Hxy]; simpl.
      * constructor. unfold date_le. lia.
      * destruct (Event.date e <=? Event.date y)%Z;
          constructor; unfold date_le in *; lia.
Qed.

Lemma sort_by_date_sorted l : Sorted date_le (sort_by_date l).
Proof.
  induction l as [|e l IH]; simpl; [constructor|].
  apply insert_by_date_sorted. exact IH.
Qed.

Lemma sort_by_date_perm l : Permutation l (sort_by_date l).
Proof.
  induction l as [|e l IH]; simpl; [reflexivity|].
  rewrite <- insert_by_date_perm. apply perm_skip. exact IH.
Qed.

Lemma sorted_adjacent l :
  Sorted date_le l ->
  forall i a b,
    nth_error l i = Some a -> nth_error l (S i) = Some b -> date_le a b.
Proof.
  induction 1 as [|x l Hs IH Hhd]; intros i a b Ha Hb.
  - destruct i; discriminate.
  - destruct i as [|i].
    + simpl in Ha, Hb. injection Ha as <-.
      destruct Hhd as [|y l Hxy]; [discriminate|].
      simpl in Hb. injection Hb as <-. exact Hxy.
    + simpl in Ha. exact (IH i a b Ha Hb).
Qed.

(** C8: when the store answers, [GET /events] replies 200 with the stored
    events rearranged so that each element's date is at most the date of
    the element that follows it. *)
Theorem C8_events_ascending_by_date db f :
  first_call_rejects f = false ->
  exists evs,
    get_events db f = Json 200 evs
    /\ Permutation (events db) evs
    /\ forall i e1 e2,
         nth_error evs i = Some e1 -> nth_error evs (S i) = Some e2 ->
         (Event.date e1 <= Event.date e2)%Z.
Proof.
  intros Hf. exists (sort_by_date (events db)). unfold get_events. rewrite Hf.
  split; [reflexivity|]. split; [apply sort_by_date_perm|].
  exact (sorted_adjacent _ (sort_by_date_sorted (events db))).
Qed.
(** ** [GET /classes] *)

Lemma existsb_map_false {A B} (p : B -> bool) (g : A -> B) (l : list A) :
  (forall x, p (g x) = false) -> existsb p (map g l) = false.
Proof.
  intros H. induction l as [|x l IH]; simpl; [reflexivity|].
  rewrite H, IH. reflexivity.
Qed.

(** What a session shows in the reply, key by key. *)
Lemma session_with_count_shows s :
  at_path [Key "day"] (session_with_count s) = Some (JStr (day s))
  /\ at_path [Key "time"] (session_with_count s) = Some (JStr (time s))
  /\ at_path [Key "maxSignups"] (session_with_count s)
     = shown_number (maxSignups s)
  /\ at_path [Key "price"] (session_with_count s) = shown_number (price s)
  /\ at_path [Key "signees"] (session_with_count s)
     = Some (count_json (Z.of_nat (List.length (signees s)))).
Proof.
  unfold session_with_count, session_toObject.
  each_number_path (maxSignups s); each_number_path (price s);
    repeat split; reflexivity.
Qed.

Lemma session_with_count_oid s :
  at_path [Key "_id"] (session_with_count s) = Some (JStr (session_oid s)).
Proof.
  unfold session_with_count, session_toObject.
  each_number_path (maxSignups s); each_number_path (price s); reflexivity.
Qed.

Lemma class_with_counts_eq c :
  class_with_counts c =
  JObj [("_id", JStr (class_oid c));
        ("name", JStr (name c));
        ("sessions", JArr (map session_with_count (sessions c)));
        ("id", JStr (class_id c))].
Proof. reflexivity. Qed.

Lemma session_with_count_hides s : exposes_signee (session_with_count s) = false.
Proof.
  unfold session_with_count, session_toObject.
  each_number_path (maxSignups s); each_number_path (price s); reflexivity.
Qed.

Lemma class_with_counts_hides c : exposes_signee (class_with_counts c) = false.
Proof.
  rewrite class_with_counts_eq. cbn -[session_with_count].
  rewrite existsb_map_false; [reflexivity|]. apply session_with_count_hides.
Qed.

Lemma catalog_view_hides entry : exposes_signee (catalog_view entry) = false.
Proof.
  unfold catalog_view, classes_with_counts. cbn -[class_with_counts].
  rewrite existsb_map_false; [reflexivity|]. apply class_with_counts_hides.
Qed.

(** A session of the reply is reached at the position of the stored one. *)
Lemma catalog_view_session entry i j c s k :
  nth_error (classes entry) i = Some c ->
  nth_error (sessions c) j = Some s ->
  at_path [Key "classes"; Index i; Key "sessions"; Index j; Key k]
          (catalog_view entry)
  = at_path [Key k] (session_with_count s).
Proof.
  intros Hc Hs. unfold catalog_view, classes_with_counts.
  cbn -[class_with_counts nth_error].
  rewrite nth_error_map, Hc. cbn -[session_with_count nth_error].
  rewrite nth_error_map, Hs. reflexivity.
Qed.

Lemma catalog_view_count entry i j c s :
  nth_error (classes entry) i = Some c ->
  nth_error (sessions c) j = Some s ->
  at_path [Key "classes"; Index i; Key "sessions"; Index j; Key "signees"]
          (catalog_view entry)
  = Some (count_json (Z.of_nat (List.length (signees s)))).
Proof.
  intros Hc Hs. rewrite (catalog_view_session entry i j c s _ Hc Hs).
  apply session_with_count_shows.
Qed.

Lemma catalog_view_fields entry i j c s :
  nth_error (classes entry) i = Some c ->
  nth_error (sessions c) j = Some s ->
  at_path [Key "classes"; Index i; Key "name"] (catalog_view entry)
  = Some (JStr (name c))
  /\ at_path [Key "classes"; Index i; Key "id"] (catalog_view entry)
     = Some (JStr (class_id c))
  /\ at_path [Key "classes"; Index i; Key "sessions"; Index j; Key "day"]
       (catalog_view entry) = Some (JStr (day s))
  /\ at_path [Key "classes"; Index i; Key "sessions"; Index j; Key "time"]
       (catalog_view entry) = Some (JStr (time s))
  /\ at_path [Key "classes"; Index i; Key "sessions"; Index j; Key "maxSignups"]
       (catalog_view entry) = shown_number (maxSignups s)
  /\ at_path [Key "classes"; Index i; Key "sessions"; Index j; Key "price"]
       (catalog_view entry) = shown_number (price s).
Proof.
  intros Hc Hs.
  rewrite !(catalog_view_session entry i j c s _ Hc Hs).
  destruct (session_with_count_shows s) as (Hd & Ht & Hm & Hp & _).
  split; [|split; [|auto]].
  - unfold catalog_view, classes_with_counts.
    cbn -[class_with_counts nth_error]. rewrite nth_error_map, Hc. reflexivity.
  - unfold catalog_view, classes_with_counts.
    cbn -[class_with_counts nth_error]. rewrite nth_error_map, Hc. reflexivity.
Qed.

Lemma catalog_view_oids entry i j c s :
  nth_error (classes entry) i = Some c ->
  nth_error (sessions c) j = Some s ->
  at_path [Key "classes"; Index i; Key "_id"] (catalog_view entry)
  = Some (JStr (class_oid c))
  /\ at_path [Key "classes"; Index i; Key "sessions"; Index j; Key "_id"]
       (catalog_view entry) = Some (JStr (session_oid s)).
Proof.
  intros Hc Hs.
  rewrite (catalog_view_session entry i j c s _ Hc Hs). split.
  - unfold catalog_view, classes_with_counts.
    cbn -[class_with_counts nth_error]. rewrite nth_error_map, Hc. reflexivity.
  - apply session_with_count_oid.
Qed.

Lemma catalog_view_arrays entry :
  (exists shown,
      at_path [Key "classes"] (catalog_view entry) = Some (JArr shown)
      /\ List.length shown = List.length (classes entry))
  /\ forall i c,
       nth_error (classes entry) i = Some c ->
       exists shown,
         at_path [Key "classes"; Index i; Key "sessions"] (catalog_view entry)
         = Some (JArr shown)
         /\ List.length shown = List.length (sessions c).
Proof.
  split.
  - eexists. split; [reflexivity|]. unfold classes_with_counts.
    apply length_map.
  - intros i c Hc. unfold catalog_view, classes_with_counts.
    cbn -[class_with_counts nth_error]. rewrite nth_error_map, Hc.
    eexists. split; [reflexivity|]. apply length_map.
Qed.

(** C7: when the store answers and both collections hold a document,
    [GET /classes] replies 200 with the two catalogs under [signups] and
    [upcoming]: each with its season, as many classes and sessions as are
    stored and, at every position, the stored [_id], name and id of the
    class and the stored [_id], day, time, capacity and price of the session
    (a capacity or price that is not stored as no key); the [signees] field
    of the session is the number of signees stored for it, and no object of
    the reply, at any depth, carries a field of a signee. *)
Theorem C7_classes_reply_counts_signees db f signupsEntry upcomingEntry :
  first_call_rejects f = false ->
  second_call_rejects f = false ->
  head (signups db) = Some signupsEntry ->
  head (upcoming db) = Some upcomingEntry ->
  exists reply,
    get_classes db f = Json 200 reply
    /\ (forall part entry,
          (part, entry) = ("signups", signupsEntry)
          \/ (part, entry) = ("upcoming", upcomingEntry) ->
          at_path [Key part; Key "season"] reply = Some (JStr (season entry))
          /\ (exists shown,
                 at_path [Key part; Key "classes"] reply = Some (JArr shown)
                 /\ List.length shown = List.length (classes entry))
          /\ forall i j c s,
               nth_error (classes entry) i = Some c ->
               nth_error (sessions c) j = Some s ->
               (exists shown,
                   at_path [Key part; Key "classes"; Index i; Key "sessions"]
                     reply = Some (JArr shown)
                   /\ List.length shown = List.length (sessions c))
               /\ at_path [Key part; Key "classes"; Index i; Key "_id"] reply
                  = Some (JStr (class_oid c))
               /\ at_path [Key part; Key "classes"; Index i; Key "sessions";
                           Index j; Key "_id"] reply
                  = Some (JStr (session_oid s))
               /\ at_path [Key part; Key "classes"; Index i; Key "name"] reply
                  = Some (JStr (name c))
               /\ at_path [Key part; Key "classes"; Index i; Key "id"] reply
                  = Some (JStr (class_id c))
               /\ at_path [Key part; Key "classes"; Index i; Key "sessions";
                           Index j; Key "day"] reply = Some (JStr (day s))
               /\ at_path [Key part; Key "classes"; Index i; Key "sessions";
                           Index j; Key "time"] reply = Some (JStr (time s))
               /\ at_path [Key part; Key "classes"; Index i; Key "sessions";
                           Index j; Key "maxSignups"] reply
                  = shown_number (maxSignups s)
               /\ at_path [Key part; Key "classes"; Index i; Key "sessions";
                           Index j; Key "price"] reply
                  = shown_number (price s)
               /\ at_path [Key part; Key "classes"; Index i; Key "sessions";
                           Index j; Key "signees"] reply
                  = Some (count_json (Z.of_nat (List.length (signees s)))))
    /\ exposes_signee reply = false.
Proof.
  intros Hf1 Hf2 Hs Hu. unfold get_classes. rewrite Hf1, Hf2, Hs, Hu.
  eexists. split; [reflexivity|]. split.
  - assert (Hpart : forall entry,
               at_path [Key "season"] (catalog_view entry)
               = Some (JStr (season entry))
               /\ (exists shown,
                      at_path [Key "classes"] (catalog_view entry)
                      = Some (JArr shown)
                      /\ List.length shown = List.length (classes entry))
               /\ forall i j c s,
                    nth_error (classes entry) i = Some c ->
                    nth_error (sessions c) j = Some s ->
                    (exists shown,
                        at_path [Key "classes"; Index i; Key "sessions"]
                          (catalog_view entry) = Some (JArr shown)
                        /\ List.length shown = List.length (sessions c))
                    /\ at_path [Key "classes"; Index i; Key "_id"]
                         (catalog_view entry) = Some (JStr (class_oid c))
                    /\ at_path [Key "classes"; Index i; Key "sessions";
                                Index j; Key "_id"] (catalog_view entry)
                       = Some (JStr (session_oid s))
                    /\ at_path [Key "classes"; Index i; Key "name"]
                         (catalog_view entry) = Some (JStr (name c))
                    /\ at_path [Key "classes"; Index i; Key "id"]
                         (catalog_view entry) = Some (JStr (class_id c))
                    /\ at_path [Key "classes"; Index i; Key "sessions";
                                Index j; Key "day"] (catalog_view entry)
                       = Some (JStr (day s))
                    /\ at_path [Key "classes"; Index i; Key "sessions";
                                Index j; Key "time"] (catalog_view entry)
                       = Some (JStr (time s))
                    /\ at_path [Key "classes"; Index i; Key "sessions";
                                Index j; Key "maxSignups"] (catalog_view entry)
                       = shown_number (maxSignups s)
                    /\ at_path [Key "classes"; Index i; Key "sessions";
                                Index j; Key "price"] (catalog_view entry)
                       = shown_number (price s)
                    /\ at_path [Key "classes"; Index i; Key "sessions";
                                Index j; Key "signees"] (catalog_view entry)
                       = Some (count_json (Z.of_nat (List.length (signees s))))).
    { intros entry. split; [reflexivity|].
      split; [exact (proj1 (catalog_view_arrays entry))|].
      intros i j c s Hc Hsess.
      split; [exact (proj2 (catalog_view_arrays entry) i c Hc)|].
      destruct (catalog_view_oids entry i j c s Hc Hsess) as (G1 & G2).
      destruct (catalog_view_fields entry i j c s Hc Hsess)
        as (H1 & H2 & H3 & H4 & H5 & H6).
      repeat (split; [assumption|]).
      exact (catalog_view_count entry i j c s Hc Hsess). }
    intros part entry [[= -> ->]|[= -> ->]].
    + exact (Hpart signupsEntry).
    + exact (Hpart upcomingEntry).
  - cbn -[catalog_view]. rewrite !catalog_view_hides. reflexivity.
Qed.

(** ** Escaped day and time *)

Lemma semicolons_app s1 s2 :
  semicolons (s1 ++ s2) = semicolons s1 + semicolons s2.
Proof. unfold semicolons. rewrite filter_app, length_app. reflexivity. Qed.

Lemma semicolons_cons c s :
  semicolons (c :: s) = semicolons [c] + semicolons s.
Proof. exact (semicolons_app [c] s). Qed.

Lemma escape_char_semicolons c :
  (escape_char c = [c] /\ semicolons (escape_char c) = semicolons [c])
  \/ semicolons (escape_char c) = S (semicolons [c]).
Proof.
  escape_cases c; try (right; reflexivity). left. split; reflexivity.
Qed.

Lemma space_not_semicolon c : is_space c = true -> semicolons [c] = 0.
Proof.
  unfold semicolons. cbn [filter].
  destruct (N.eqb_spec 59 c) as [<-|_]; [discriminate|reflexivity].
Qed.

Lemma escape_semicolons s :
  (escape s = s /\ semicolons (escape s) = semicolons s)
  \/ semicolons s < semicolons (escape s).
Proof.
  induction s as [|c s IH]; [left; split; reflexivity|].
  unfold escape. cbn [flat_map]. fold (escape s).
  rewrite semicolons_app, (semicolons_cons c s).
  destruct (escape_char_semicolons c) as [[Hc Hn]|Hn], IH as [[Hs Hm]|Hm];
    try (right; lia).
  left. rewrite Hc, Hs. split; [reflexivity|]. rewrite semicolons_cons. lia.
Qed.

Lemma ltrim_semicolons s : semicolons (ltrim s) = semicolons s.
Proof.
  induction s as [|c s IH]; [reflexivity|]. cbn [ltrim].
  destruct (is_space c) eqn:E; [|reflexivity].
  rewrite IH, (semicolons_cons c s), (space_not_semicolon c E). reflexivity.
Qed.

Lemma rtrim_semicolons s : semicolons (rtrim s) = semicolons s.
Proof.
  induction s as [|c s IH]; [reflexivity|]. cbn [rtrim].
  rewrite (semicolons_cons c s), <- IH.
  destruct (rtrim s) as [|c' s'].
  - change (semicolons []) with 0.
    destruct (is_space c) eqn:E; [|lia].
    rewrite (space_not_semicolon c E). reflexivity.
  - rewrite (semicolons_cons c (c' :: s')). reflexivity.
Qed.

Lemma trim_semicolons s : semicolons (trim s) = semicolons s.
Proof. unfold trim. rewrite rtrim_semicolons. apply ltrim_semicolons. Qed.

(** A value that [escape] alters is sanitized to something else than the
    value as it was sent. *)
Lemma escaped_differs_from_input s :
  escape (trim s) <> trim s -> escape (trim s) <> s.
Proof.
  intros Halt E. destruct (escape_semicolons (trim s)) as [[He _]|Hlt].
  - exact (Halt He).
  - rewrite E, trim_semicolons in Hlt. lia.
Qed.

Lemma find_some_of {A} (p : A -> bool) (l : list A) x :
  In x l -> p x = true -> exists y, find p l = Some y.
Proof.
  intros Hin Hp. destruct (find p l) as [y|] eqn:E; [eauto|].
  rewrite (find_none p l E x Hin) in Hp. discriminate.
Qed.

(** C9 (amended): for a valid request whose class is found and whose day or
    time is altered by [escape], the lookup of line 173 compares the stored
    day and time with the escaped text.  It selects no session that stores
    the day and time as they were sent.  When no session of the class stores
    the escaped day and time themselves, the reply is 404 "Session not
    found" and the database is as it was; when one does, the first such
    session is the one the duplicate and capacity tests are run on. *)
Theorem C9_lookup_uses_escaped_day_and_time db f raw doc c :
  validationResult (sanitize raw) = [] ->
  first_call_rejects f = false ->
  signups_catalog db = Some doc ->
  find_class (he_decode (Body.className (sanitize raw))) doc = Some c ->
  escape (trim (Body.day raw)) <> trim (Body.day raw)
  \/ escape (trim (Body.time raw)) <> trim (Body.time raw) ->
  (forall s,
      day s = Body.day raw -> time s = Body.time raw ->
      find_session (Body.day (sanitize raw)) (Body.time (sanitize raw)) c
      <> Some s)
  /\ ((forall s, In s (sessions c) ->
                 ~ (day s = escape (trim (Body.day raw))
                    /\ time s = escape (trim (Body.time raw)))) ->
      post_class_signup db f raw = (Send 404 "Session not found", db))
  /\ ((exists s, In s (sessions c)
                 /\ day s = escape (trim (Body.day raw))
                 /\ time s = escape (trim (Body.time raw))) ->
      exists s,
        find_session (Body.day (sanitize raw)) (Body.time (sanitize raw)) c
        = Some s
        /\ In s (sessions c)
        /\ day s = escape (trim (Body.day raw))
        /\ time s = escape (trim (Body.time raw))
        /\ post_class_signup db f raw =
             if existsb (same_child (sanitize raw)) (signees s)
             then (Send 400 "Already signed up", db)
             else if session_full s then (Send 400 "Session is full", db)
             else if second_call_rejects f then (server_error, db)
             else (signup_successful,
                   set_signups db
                     (push_filtered (he_decode (Body.className (sanitize raw)))
                        (Body.day (sanitize raw)) (Body.time (sanitize raw))
                        (cast_signee (Body.signee (sanitize raw))) doc
                      :: tl (signups db)))).
Proof.
  intros Hval Hf Hdoc Hc Halt. split; [|split].
  - intros s Hd Ht Hfind. unfold find_session in Hfind.
    apply find_some in Hfind as [_ Hsel].
    apply (proj1 (session_filter_true _ _ s)) in Hsel as [Hd' Ht'].
    simpl in Hd', Ht'.
    destruct Halt as [Halt|Halt];
      apply escaped_differs_from_input in Halt; congruence.
  - intros Hnone. rewrite (post_valid _ _ _ Hval).
    unfold signups_catalog in Hdoc. unfold find_class in Hc.
    unfold register. rewrite Hf, Hdoc, Hc.
    assert (Hfind : find (fun s => (day s =? Body.day (sanitize raw))
                                   && (time s =? Body.time (sanitize raw)))
                         (sessions c) = None).
    { apply find_none_iff. intros s Hs.
      destruct (session_filter (Body.day (sanitize raw))
                  (Body.time (sanitize raw)) s) eqn:E; [|exact E].
      apply session_filter_true in E. destruct (Hnone s Hs E). }
    rewrite Hfind. reflexivity.
  - intros (s0 & Hin0 & Hd0 & Ht0).
    destruct (find_some_of
                (fun s => (day s =? Body.day (sanitize raw))
                          && (time s =? Body.time (sanitize raw)))
                (sessions c) s0 Hin0) as [s Hs].
    { apply (proj2 (session_filter_true _ _ s0)). auto. }
    exists s. fold (find_session (Body.day (sanitize raw))
                      (Body.time (sanitize raw)) c) in Hs.
    split; [exact Hs|].
    pose proof Hs as Hs'. unfold find_session in Hs'.
    apply find_some in Hs' as [Hin Hsel].
    apply (proj1 (session_filter_true _ _ s)) in Hsel as [Hd Ht].
    split; [exact Hin|]. split; [exact Hd|]. split; [exact Ht|].
    rewrite (post_valid _ _ _ Hval).
    assert (Hloc : located_session db (sanitize raw) = Some s).
    { unfold located_session. rewrite Hdoc, Hc. exact Hs. }
    rewrite (register_located _ _ _ _ Hf Hloc).
    destruct (existsb _ (signees s)); [reflexivity|].
    destruct (session_full s); [reflexivity|].
    destruct (second_call_rejects f); [reflexivity|].
    unfold signups_catalog in Hdoc.
    destruct (signups db) as [|doc0 rest] eqn:Hdb; [discriminate|].
    injection Hdoc as ->. cbn [findOneAndUpdate tl].
    rewrite (matches_query_found _ _ _ _ _ _ Hc Hs). reflexivity.
Qed.

(** * Further properties of the routes *)

(** ** Which requests succeed *)

Lemma located_session_eq db b doc :
  signups_catalog db = Some doc ->
  located_session db b
  = locate (he_decode (Body.className b)) (Body.day b) (Body.time b) doc.
Proof. unfold located_session, locate. intros ->. reflexivity. Qed.

(** X1: a request is answered with the success reply exactly when it passes
    validation, both store calls answer, the session it names exists, no
    signee of that session has the child's names and the test of line 190
    does not hold of the session (so also when it has no [maxSignups]); the
    update then lands on the document that was tested: the head of the
    collection, with the cast signee pushed under the filters. *)
Theorem signup_succeeds_exactly_when db f raw :
  ((exists db', post_class_signup db f raw = (signup_successful, db')) <->
   validationResult (sanitize raw) = []
   /\ first_call_rejects f = false
   /\ second_call_rejects f = false
   /\ exists s,
        located_session db (sanitize raw) = Some s
        /\ existsb (same_child (sanitize raw)) (signees s) = false
        /\ session_full s = false)
  /\ (forall db',
        post_class_signup db f raw = (signup_successful, db') ->
        exists doc rest,
          signups db = doc :: rest
          /\ signups db'
             = push_filtered (he_decode (Body.className (sanitize raw)))
                 (Body.day (sanitize raw)) (Body.time (sanitize raw))
                 (cast_signee (Body.signee (sanitize raw))) doc :: rest).
Proof.
  split; [split|].
  - intros [db' Hok].
    assert (Hval : validationResult (sanitize raw) = []).
    { unfold post_class_signup in Hok.
      destruct (validationResult (sanitize raw)); [reflexivity|discriminate]. }
    apply post_success, register_success in Hok
      as (doc & rest & c & s & Hdb & Hc & Hs & Hdup & Hroom & Hf1 & Hf2 & _).
    repeat split; auto. exists s. repeat split; auto.
    unfold located_session, signups_catalog. rewrite Hdb. cbn [head].
    rewrite Hc. exact Hs.
  - intros (Hval & Hf1 & Hf2 & s & Hloc & Hdup & Hroom).
    rewrite (post_valid _ _ _ Hval), (register_located _ _ _ _ Hf1 Hloc).
    rewrite Hdup, Hf2, Hroom. eexists. reflexivity.
  - intros db' Hok. apply post_success, register_success in Hok
      as (doc & rest & c & s & Hdb & _ & _ & _ & _ & _ & _ & ->).
    exists doc, rest. split; [exact Hdb|reflexivity].
Qed.

(** ** Validation comes first *)

Lemma escape_char_not_empty c : escape_char c <> [].
Proof. escape_cases c; discriminate. Qed.

Lemma escape_empty_inv s : escape s = [] -> s = [].
Proof.
  destruct s as [|c s]; [reflexivity|]. unfold escape. cbn [flat_map].
  intros E. apply app_eq_nil in E as [E _].
  destruct (escape_char_not_empty c E).
Qed.

Lemma field_check_reports v p m :
  In {| value := v; msg := m; path := p |} (field_check false v p m).
Proof. left. reflexivity. Qed.

(** X2: a text field that is empty or all white space is reported, with its
    empty value and under its path, in a 400 reply, whatever the state of
    the store: no store call is made and the database is returned as it
    was. *)
Theorem blank_field_is_reported raw p v :
  In (p, v) (text_fields raw) ->
  trim v = [] ->
  exists errs,
    In (JObj [("type", JStr (js "field")); ("value", JStr []);
              ("msg", JStr (js "Invalid value")); ("path", JStr (js p));
              ("location", JStr (js "body"))]) errs
    /\ forall db f,
         post_class_signup db f raw = (Json 400 (JObj [("errors", JArr errs)]), db).
Proof.
  intros Hin Hblank.
  assert (Herr : In {| value := []; msg := "Invalid value"; path := p |}
                    (validationResult (sanitize raw))).
  { unfold validationResult, sanitize. cbn [Body.className Body.day Body.time
      Body.signee childFirstName childLastName parentFirstName parentLastName
      parentPhoneNumber].
    simpl in Hin.
    repeat (destruct Hin as [[= <- <-]|Hin];
            [rewrite Hblank;
             repeat first [ apply in_or_app; left; apply field_check_reports
                          | apply in_or_app; right ]
            |]).
    destruct Hin. }
  exists (map error_json (validationResult (sanitize raw))). split.
  - apply (in_map error_json) in Herr. exact Herr.
  - intros db f. unfold post_class_signup.
    destruct (validationResult (sanitize raw)); [destruct Herr|reflexivity].
Qed.

(** ** What a request leaves alone *)

Lemma post_frame db f raw :
  upcoming (snd (post_class_signup db f raw)) = upcoming db
  /\ events (snd (post_class_signup db f raw)) = events db
  /\ tl (signups (snd (post_class_signup db f raw))) = tl (signups db).
Proof.
  destruct (post_outcome db f raw) as [E|E]; [rewrite E; auto|].
  apply post_success, register_success in E
    as (doc & rest & c & s & Hdb & _ & _ & _ & _ & _ & _ & E).
  rewrite E, Hdb. simpl. auto.
Qed.

Lemma serve_frame reqs : forall db,
  upcoming (serve db reqs) = upcoming db
  /\ events (serve db reqs) = events db
  /\ tl (signups (serve db reqs)) = tl (signups db).
Proof.
  induction reqs as [|[f raw] reqs IH]; intros db; [auto|].
  simpl. destruct (IH (snd (post_class_signup db f raw))) as (Hu & He & Ht).
  destruct (post_frame db f raw) as (Hu' & He' & Ht').
  repeat split; congruence.
Qed.

(** X3: no sequence of signup requests changes the [upcoming] or [events]
    collection or any document of [signups] after the first; [GET /events]
    answers the same before and after. *)
Theorem signups_touch_the_head_document_only db reqs :
  upcoming (serve db reqs) = upcoming db
  /\ events (serve db reqs) = events db
  /\ tl (signups (serve db reqs)) = tl (signups db)
  /\ forall f, get_events (serve db reqs) f = get_events db f.
Proof.
  destruct (serve_frame reqs db) as (Hu & He & Ht).
  repeat split; auto. intros f. unfold get_events. rewrite He. reflexivity.
Qed.

(** ** Requests for different sessions *)

(** A push under one key leaves the session found under another key as it
    was. *)
Lemma find_session_push_other n1 d1 t1 x n2 d2 t2 c :
  (n1, d1, t1) <> (n2, d2, t2) ->
  name c = n2 ->
  find_session d2 t2 (if name c =? n1 then push_in_class d1 t1 x c else c)
  = find_session d2 t2 c.
Proof.
  intros Hk Hn. destruct (name c =? n1) eqn:E; [|reflexivity].
  apply str_eqb_eq in E. unfold find_session, push_in_class, push_in_sessions.
  cbn [sessions]. rewrite find_map_preserved.
  - destruct (find _ (sessions c)) as [s|] eqn:Hs; [|reflexivity].
    apply find_some in Hs as [_ Hs]. fold (session_filter d2 t2 s) in Hs.
    apply session_filter_true in Hs as [Hd Ht]. simpl.
    destruct (session_filter d1 t1 s) eqn:F; [|reflexivity].
    apply session_filter_true in F as [Hd' Ht']. exfalso. apply Hk. congruence.
  - intros s. destruct (session_filter d1 t1 s); reflexivity.
Qed.

Lemma find_class_push n1 d1 t1 x n2 doc :
  find_class n2 (push_filtered n1 d1 t1 x doc)
  = option_map (fun c => if name c =? n1 then push_in_class d1 t1 x c else c)
      (find_class n2 doc).
Proof.
  unfold find_class, push_filtered. cbn [classes]. apply find_map_preserved.
  intros c. destruct (name c =? n1); reflexivity.
Qed.

Lemma locate_push_other n1 d1 t1 x n2 d2 t2 doc :
  (n1, d1, t1) <> (n2, d2, t2) ->
  locate n2 d2 t2 (push_filtered n1 d1 t1 x doc) = locate n2 d2 t2 doc.
Proof.
  intros Hk. unfold locate. rewrite find_class_push.
  destruct (find_class n2 doc) as [c|] eqn:Hc; [|reflexivity]. simpl.
  apply (find_session_push_other n1 d1 t1 x n2 d2 t2 c Hk).
  unfold find_class in Hc. apply find_some in Hc as [_ Hc].
  apply str_eqb_eq. exact Hc.
Qed.

(** The reply of the handler after a push under another key. *)
Lemma register_reply_after_push db f b doc rest n d t x :
  signups db = doc :: rest ->
  (n, d, t) <> body_key b ->
  fst (register (set_signups db (push_filtered n d t x doc :: rest)) f b)
  = fst (register db f b).
Proof.
  intros Hdb Hk. unfold register. rewrite Hdb. cbn [set_signups signups head].
  destruct (first_call_rejects f); [reflexivity|].
  fold (find_class (he_decode (Body.className b)) (push_filtered n d t x doc)).
  fold (find_class (he_decode (Body.className b)) doc).
  rewrite find_class_push.
  destruct (find_class (he_decode (Body.className b)) doc) as [c|] eqn:Hc;
    [|reflexivity].
  cbn [option_map].
  fold (find_session (Body.day b) (Body.time b)
          (if name c =? n then push_in_class d t x c else c)).
  fold (find_session (Body.day b) (Body.time b) c).
  rewrite (find_session_push_other n d t x (he_decode (Body.className b))
             (Body.day b) (Body.time b) c Hk).
  - destruct (find_session _ _ c) as [s|]; [|reflexivity].
    destruct (existsb _ (signees s)); [reflexivity|].
    destruct (number_le _ _); [reflexivity|].
    destruct (second_call_rejects f); reflexivity.
  - unfold find_class in Hc. apply find_some in Hc as [_ Hc].
    apply str_eqb_eq. exact Hc.
Qed.

Lemma post_reply_after_other db f1 raw1 f2 raw2 :
  body_key (sanitize raw1) <> body_key (sanitize raw2) ->
  fst (post_class_signup (snd (post_class_signup db f1 raw1)) f2 raw2)
  = fst (post_class_signup db f2 raw2).
Proof.
  intros Hk. destruct (post_outcome db f1 raw1) as [E|E]; [rewrite E; reflexivity|].
  apply post_success, register_success in E
    as (doc & rest & c & s & Hdb & _ & _ & _ & _ & _ & _ & E).
  rewrite E. unfold post_class_signup.
  destruct (validationResult (sanitize raw2)); [|reflexivity].
  apply register_reply_after_push; assumption.
Qed.

Lemma push_in_sessions_commute d1 t1 x1 d2 t2 x2 l :
  (d1, t1) <> (d2, t2) ->
  push_in_sessions d1 t1 x1 (push_in_sessions d2 t2 x2 l)
  = push_in_sessions d2 t2 x2 (push_in_sessions d1 t1 x1 l).
Proof.
  intros Hk. unfold push_in_sessions. rewrite !map_map. apply map_ext.
  intros s.
  destruct (session_filter d1 t1 s) eqn:F1, (session_filter d2 t2 s) eqn:F2;
    cbn; try rewrite F1; try rewrite F2;
    try (unfold session_filter in *; cbn; try rewrite F1; try rewrite F2);
    try reflexivity.
  exfalso. apply Hk. fold (session_filter d1 t1 s) in F1.
  fold (session_filter d2 t2 s) in F2.
  apply session_filter_true in F1 as [<- <-].
  apply session_filter_true in F2 as [<- <-]. reflexivity.
Qed.

Lemma push_filtered_commute n1 d1 t1 x1 n2 d2 t2 x2 doc :
  (n1, d1, t1) <> (n2, d2, t2) ->
  push_filtered n1 d1 t1 x1 (push_filtered n2 d2 t2 x2 doc)
  = push_filtered n2 d2 t2 x2 (push_filtered n1 d1 t1 x1 doc).
Proof.
  intros Hk. unfold push_filtered. cbn [classes season]. f_equal.
  rewrite !map_map. apply map_ext. intros c.
  destruct (name c =? n1) eqn:E1, (name c =? n2) eqn:E2;
    cbn [name push_in_class]; rewrite ?E1, ?E2; try reflexivity.
  unfold push_in_class. cbn [class_oid name sessions class_id]. f_equal.
  apply push_in_sessions_commute. intros [= -> ->].
  apply str_eqb_eq in E1, E2. apply Hk. congruence.
Qed.

Lemma success_changes db f raw : post_class_signup db f raw <> (signup_successful, db).
Proof.
  intros E. apply post_success, register_success in E
    as (doc & rest & c & s & Hdb & Hc & Hs & _ & _ & _ & _ & E).
  apply (f_equal signups) in E. rewrite Hdb in E. simpl in E.
  injection E as E. symmetry in E.
  exact (push_filtered_changes _ _ _ _ _ _ _ Hc Hs E).
Qed.

(** X4: two requests that name different (class, day, time) triples do not
    see each other: the reply to each is the same whether it is served
    first or second, and the database is the same after both in either
    order. *)
Theorem requests_for_different_sessions_commute db f1 raw1 f2 raw2 :
  body_key (sanitize raw1) <> body_key (sanitize raw2) ->
  fst (post_class_signup (snd (post_class_signup db f1 raw1)) f2 raw2)
  = fst (post_class_signup db f2 raw2)
  /\ fst (post_class_signup (snd (post_class_signup db f2 raw2)) f1 raw1)
     = fst (post_class_signup db f1 raw1)
  /\ snd (post_class_signup (snd (post_class_signup db f1 raw1)) f2 raw2)
     = snd (post_class_signup (snd (post_class_signup db f2 raw2)) f1 raw1).
Proof.
  intros Hk.
  assert (Hk' : body_key (sanitize raw2) <> body_key (sanitize raw1))
    by congruence.
  pose proof (post_reply_after_other db f1 raw1 f2 raw2 Hk) as R2.
  pose proof (post_reply_after_other db f2 raw2 f1 raw1 Hk') as R1.
  split; [exact R2|]. split; [exact R1|].
  destruct (post_outcome db f1 raw1) as [E1|E1].
  - (* the first request changes nothing *)
    rewrite E1.
    destruct (post_outcome (snd (post_class_signup db f2 raw2)) f1 raw1)
      as [E|E]; [rewrite E; reflexivity|].
    exfalso. rewrite E in R1. simpl in R1.
    apply (success_changes db f1 raw1).
    destruct (post_class_signup db f1 raw1) as [r d]. simpl in *. congruence.
  - destruct (post_outcome db f2 raw2) as [E2|E2].
    + rewrite E2.
      destruct (post_outcome (snd (post_class_signup db f1 raw1)) f2 raw2)
        as [E|E]; [rewrite E; reflexivity|].
      exfalso. rewrite E in R2. simpl in R2.
      apply (success_changes db f2 raw2).
      destruct (post_class_signup db f2 raw2) as [r d]. simpl in *. congruence.
    + (* both succeed *)
      rewrite E1 in R2. rewrite E2 in R1. rewrite E1, E2. cbn [snd] in *.
      rewrite E1 in R1. rewrite E2 in R2. cbn [fst] in *.
      apply post_success, register_success in E1
        as (doc & rest & c1 & s1 & Hdb & _ & _ & _ & _ & _ & _ & E1).
      apply post_success, register_success in E2
        as (doc' & rest' & c2 & s2 & Hdb' & _ & _ & _ & _ & _ & _ & E2).
      rewrite Hdb in Hdb'. injection Hdb' as <- <-.
      rewrite E1 in *. rewrite E2 in *.
      destruct (post_class_signup (set_signups db _) f2 raw2) as [r12 db12] eqn:P12.
      destruct (post_class_signup (set_signups db _) f1 raw1) as [r21 db21] eqn:P21.
      cbn [fst snd] in *. subst r12 r21.
      apply post_success, register_success in P12
        as (d12 & rest12 & _ & _ & H12 & _ & _ & _ & _ & _ & _ & ->).
      apply post_success, register_success in P21
        as (d21 & rest21 & _ & _ & H21 & _ & _ & _ & _ & _ & _ & ->).
      cbn [set_signups signups] in H12, H21.
      injection H12 as <- <-. injection H21 as <- <-.
      unfold set_signups. cbn [upcoming events]. f_equal. f_equal.
      apply push_filtered_commute. unfold body_key in Hk'. exact Hk'.
Qed.

(** X5: once the session a body names holds [maxSignups] signees or more
    (the test of line 190 holds of it), no later request, whatever it
    names, changes that session: it is found again, with the same signees,
    after any sequence of requests. *)
Theorem full_session_never_changes reqs : forall db b s,
  located_session db b = Some s ->
  session_full s = true ->
  located_session (serve db reqs) b = Some s.
Proof.
  induction reqs as [|[f raw] reqs IH]; intros db b s Hloc Hfull; [exact Hloc|].
  simpl. apply IH; [|exact Hfull].
  destruct (post_outcome db f raw) as [E|E]; [rewrite E; exact Hloc|].
  rewrite E. cbn [snd].
  apply post_success, register_success in E
    as (doc & rest & c0 & s0 & Hdb & Hc0 & Hs0 & _ & Hroom & _ & _ & ->).
  assert (Hdoc : signups_catalog db = Some doc).
  { unfold signups_catalog. rewrite Hdb. reflexivity. }
  rewrite (located_session_eq db b doc Hdoc) in Hloc.
  erewrite located_session_eq; [|reflexivity].
  destruct (key_eq_dec (body_key (sanitize raw)) (body_key b)) as [K|K].
  - exfalso.
    assert (Hloc0 : locate (he_decode (Body.className (sanitize raw)))
                      (Body.day (sanitize raw)) (Body.time (sanitize raw)) doc
                    = Some s0).
    { unfold locate. rewrite Hc0. exact Hs0. }
    unfold body_key in K. assert (s = s0) by congruence. subst s0. congruence.
  - rewrite locate_push_other; [exact Hloc|exact K].
Qed.

(** ** Stored data only grows *)

Lemma Forall2_same {A} (R : A -> A -> Prop) (l : list A) :
  (forall x, R x x) -> Forall2 R l l.
Proof. intros H. induction l; constructor; auto. Qed.

Lemma Forall2_compose {A} (R : A -> A -> Prop) :
  (forall x y z, R x y -> R y z -> R x z) ->
  forall l1 l2 l3, Forall2 R l1 l2 -> Forall2 R l2 l3 -> Forall2 R l1 l3.
Proof.
  intros Htrans l1 l2 l3 H12. revert l3.
  induction H12 as [|x y l1 l2 Hxy _ IH]; intros l3 H23;
    inversion H23; subst; constructor; eauto.
Qed.

Lemma Forall2_map_self {A} (R : A -> A -> Prop) (g : A -> A) (l : list A) :
  (forall x, R x (g x)) -> Forall2 R l (map g l).
Proof. intros H. induction l; simpl; constructor; auto. Qed.

Lemma session_extends_refl s : session_extends s s.
Proof.
  unfold session_extends. repeat split. exists []. rewrite app_nil_r. reflexivity.
Qed.

Lemma session_extends_trans s1 s2 s3 :
  session_extends s1 s2 -> session_extends s2 s3 -> session_extends s1 s3.
Proof.
  intros (Ho & Hd & Ht & Hm & Hp & a & Ha)
         (Ho' & Hd' & Ht' & Hm' & Hp' & a' & Ha').
  unfold session_extends. repeat split; try congruence.
  exists (a ++ a'). rewrite Ha', Ha, app_assoc. reflexivity.
Qed.

Lemma class_extends_refl c : class_extends c c.
Proof.
  unfold class_extends. repeat split.
  apply Forall2_same, session_extends_refl.
Qed.

Lemma class_extends_trans c1 c2 c3 :
  class_extends c1 c2 -> class_extends c2 c3 -> class_extends c1 c3.
Proof.
  intros (Ho & Hn & Hi & Hs) (Ho' & Hn' & Hi' & Hs').
  unfold class_extends. repeat split; try congruence.
  exact (Forall2_compose _ session_extends_trans _ _ _ Hs Hs').
Qed.

Lemma catalog_extends_trans d1 d2 d3 :
  catalog_extends d1 d2 -> catalog_extends d2 d3 -> catalog_extends d1 d3.
Proof.
  intros (Hs & Hc) (Hs' & Hc'). split; [congruence|].
  exact (Forall2_compose _ class_extends_trans _ _ _ Hc Hc').
Qed.

Lemma push_filtered_extends n d t x doc :
  catalog_extends doc (push_filtered n d t x doc).
Proof.
  split; [reflexivity|]. unfold push_filtered. cbn [classes].
  apply Forall2_map_self. intros c.
  destruct (name c =? n); [|apply class_extends_refl].
  unfold class_extends, push_in_class, push_in_sessions.
  cbn [class_oid name class_id sessions].
  repeat split. apply Forall2_map_self. intros s.
  destruct (session_filter d t s); [|apply session_extends_refl].
  unfold session_extends, push_signee. cbn. repeat split. exists [x]. reflexivity.
Qed.

(** X6: through any sequence of requests the signups catalog keeps its
    season, its classes and their sessions, position by position, with the
    same names, ids, days, times, capacities and prices; each signee list
    is the old one with signees added at its end: nothing stored is ever
    removed, reordered or rewritten. *)
Theorem stored_catalog_only_grows db reqs doc :
  signups_catalog db = Some doc ->
  exists doc',
    signups_catalog (serve db reqs) = Some doc' /\ catalog_extends doc doc'.
Proof.
  intros Hdoc.
  apply (serve_invariant (fun d => catalog_extends doc d)) with (doc := doc).
  - clear. intros db f raw db' d Hok Hd Hext.
    apply post_success, register_success in Hok
      as (doc0 & rest & c & s & Hdb & _ & _ & _ & _ & _ & _ & ->).
    unfold signups_catalog in Hd. rewrite Hdb in Hd. injection Hd as ->.
    eexists. split; [reflexivity|].
    eapply catalog_extends_trans; [exact Hext|apply push_filtered_extends].
  - exact Hdoc.
  - split; [reflexivity|]. apply Forall2_same, class_extends_refl.
Qed.

(** ** No child twice in a session *)

Lemma same_child_names b sg :
  child_names sg = child_names (cast_signee (Body.signee b)) ->
  same_child b sg = true.
Proof.
  unfold child_names, same_child. cbn. intros [= -> ->].
  rewrite !str_eqb_refl. reflexivity.
Qed.

Lemma push_keeps_no_child_twice b n d t doc c s :
  NoDup (session_keys doc) ->
  no_child_twice doc ->
  find_class n doc = Some c ->
  find_session d t c = Some s ->
  existsb (same_child b) (signees s) = false ->
  no_child_twice (push_filtered n d t (cast_signee (Body.signee b)) doc).
Proof.
  intros Hnd Hno Hc Hs Hdup c' s' Hc' Hs'.
  destruct (push_filtered_sessions _ _ _ _ _ _ _ Hc' Hs')
    as (c0 & s0 & Hc0 & Hs0 & _ & [->|(Hn & Hd & Ht & ->)]).
  - exact (Hno c0 s0 Hc0 Hs0).
  - unfold find_class in Hc. apply find_some in Hc as [Hc Hname].
    unfold find_session in Hs. apply find_some in Hs as [Hs Hdt].
    apply str_eqb_eq in Hname. apply session_filter_true in Hdt as [Hd' Ht'].
    assert (E : (name c0, s0) = (name c, s)).
    { apply (NoDup_map_injective session_key (all_sessions doc)).
      - exact Hnd.
      - apply in_all_sessions; assumption.
      - apply in_all_sessions; assumption.
      - unfold session_key. simpl. congruence. }
    injection E as _ ->. cbn [push_signee signees]. rewrite map_app.
    apply NoDup_app.
    + exact (Hno c s Hc Hs).
    + constructor; [simpl; tauto|constructor].
    + intros a Ha [<-|[]]. apply in_map_iff in Ha as (sg & Hsg & Hin).
      apply same_child_names in Hsg.
      assert (Hex : existsb (same_child b) (signees s) = true).
      { apply existsb_exists. exists sg. auto. }
      congruence.
Qed.

(** X7: in a signups catalog whose sessions have distinct (class name, day,
    time) keys and hold no two signees with the same child first and last
    name, no sequence of requests makes a session hold the same pair of
    child names twice. *)
Theorem no_child_is_stored_twice db reqs doc :
  signups_catalog db = Some doc ->
  NoDup (session_keys doc) ->
  no_child_twice doc ->
  exists doc',
    signups_catalog (serve db reqs) = Some doc' /\ no_child_twice doc'.
Proof.
  intros Hdoc Hnd Hno.
  destruct (serve_invariant
              (fun d => no_child_twice d /\ NoDup (session_keys d)))
    with (reqs := reqs) (db := db) (doc := doc) as (doc' & Hdoc' & Hno' & _);
    auto.
  - clear. intros db f raw db' doc Hok Hdoc [Hno Hnd].
    apply post_success, register_success in Hok
      as (doc0 & rest & c & s & Hdb & Hc & Hs & Hdup & _ & _ & _ & ->).
    unfold signups_catalog in Hdoc. rewrite Hdb in Hdoc. injection Hdoc as ->.
    eexists. split; [reflexivity|]. split.
    + eapply push_keeps_no_child_twice; eassumption.
    + rewrite session_keys_push. exact Hnd.
  - exists doc'. auto.
Qed.

(** ** How many signees a success stores *)

Lemma push_in_sessions_length nm d t x l :
  List.length (flat_map signees (push_in_sessions d t x l))
  = List.length (flat_map signees l)
    + count_occ key_eq_dec (map session_key (map (pair nm) l)) (nm, d, t).
Proof.
  induction l as [|s l IH]; [reflexivity|].
  cbn [push_in_sessions map flat_map]. fold (push_in_sessions d t x l).
  rewrite !length_app, IH. cbn [count_occ].
  destruct (key_eq_dec (session_key (nm, s)) (nm, d, t)) as [K|K];
    destruct (session_filter d t s) eqn:F.
  - cbn [push_signee signees]. rewrite length_app. simpl. lia.
  - exfalso. unfold session_key in K. cbn in K. injection K as Kd Kt.
    assert (session_filter d t s = true) by (apply session_filter_true; auto).
    congruence.
  - exfalso. apply session_filter_true in F as [<- <-]. apply K. reflexivity.
  - lia.
Qed.

Lemma other_class_no_key nm n d t l :
  nm <> n ->
  count_occ key_eq_dec (map session_key (map (pair nm) l)) (n, d, t) = 0.
Proof.
  intros Hn. induction l as [|s l IH]; [reflexivity|].
  cbn [map count_occ].
  destruct (key_eq_dec (session_key (nm, s)) (n, d, t)) as [K|K]; [|exact IH].
  exfalso. unfold session_key in K. cbn in K. congruence.
Qed.

Lemma push_filtered_length n d t x doc :
  List.length (stored_signees (push_filtered n d t x doc))
  = List.length (stored_signees doc)
    + count_occ key_eq_dec (session_keys doc) (n, d, t).
Proof.
  unfold stored_signees, session_keys, all_sessions, push_filtered.
  cbn [classes]. induction (classes doc) as [|c l IH]; [reflexivity|].
  cbn [map flat_map]. rewrite !length_app, !map_app, count_occ_app, IH.
  destruct (name c =? n) eqn:E.
  - apply str_eqb_eq in E. subst n. cbn [push_in_class sessions].
    rewrite (push_in_sessions_length (name c)). lia.
  - apply str_eqb_neq in E. rewrite (other_class_no_key _ _ _ _ _ E). lia.
Qed.

(** X8: a success stores the signee once for every session of the catalog
    with the class name, day and time of the request: at least once, and
    exactly once when the session keys of the catalog are distinct. *)
Theorem success_stores_one_signee_per_matching_session db f raw db' doc :
  post_class_signup db f raw = (signup_successful, db') ->
  signups_catalog db = Some doc ->
  exists doc',
    signups_catalog db' = Some doc'
    /\ List.length (stored_signees doc')
       = List.length (stored_signees doc)
         + count_occ key_eq_dec (session_keys doc) (body_key (sanitize raw))
    /\ 1 <= count_occ key_eq_dec (session_keys doc) (body_key (sanitize raw))
    /\ (NoDup (session_keys doc) ->
        List.length (stored_signees doc') = S (List.length (stored_signees doc))).
Proof.
  intros Hok Hdoc.
  apply post_success, register_success in Hok
    as (doc0 & rest & c & s & Hdb & Hc & Hs & _ & _ & _ & _ & ->).
  unfold signups_catalog in Hdoc. rewrite Hdb in Hdoc. injection Hdoc as ->.
  eexists. split; [reflexivity|].
  assert (Hin : In (body_key (sanitize raw)) (session_keys doc)).
  { unfold find_class in Hc. apply find_some in Hc as [Hc Hname].
    unfold find_session in Hs. apply find_some in Hs as [Hs Hdt].
    apply str_eqb_eq in Hname. apply session_filter_true in Hdt as [Hd Ht].
    unfold session_keys. apply in_map_iff. exists (name c, s). split.
    - unfold session_key, body_key. cbn [fst snd]. congruence.
    - apply in_all_sessions; assumption. }
  split; [apply push_filtered_length|]. split.
  - apply (count_occ_In key_eq_dec) in Hin. lia.
  - intros Hnd. rewrite push_filtered_length.
    unfold body_key in Hin.
    rewrite (proj1 (NoDup_count_occ' key_eq_dec _) Hnd _ Hin). lia.
Qed.

(** ** [GET /classes] after a signup *)

(** X9: in the reply of [GET /classes] the spread keeps what is stored: at
    every position the class shows its stored name and id and the session
    its stored day, time, capacity and price (a missing capacity or price
    as no key); and the number of classes and of sessions shown is the
    number stored. *)
Theorem classes_reply_keeps_stored_fields db f signupsEntry upcomingEntry :
  first_call_rejects f = false ->
  second_call_rejects f = false ->
  head (signups db) = Some signupsEntry ->
  head (upcoming db) = Some upcomingEntry ->
  exists reply,
    get_classes db f = Json 200 reply
    /\ forall part entry,
         (part, entry) = ("signups", signupsEntry)
         \/ (part, entry) = ("upcoming", upcomingEntry) ->
         (exists shown,
             at_path [Key part; Key "classes"] reply = Some (JArr shown)
             /\ List.length shown = List.length (classes entry))
         /\ forall i j c s,
              nth_error (classes entry) i = Some c ->
              nth_error (sessions c) j = Some s ->
              (exists shown,
                  at_path [Key part; Key "classes"; Index i; Key "sessions"] reply
                  = Some (JArr shown)
                  /\ List.length shown = List.length (sessions c))
              /\ at_path [Key part; Key "classes"; Index i; Key "name"] reply
                 = Some (JStr (name c))
              /\ at_path [Key part; Key "classes"; Index i; Key "id"] reply
                 = Some (JStr (class_id c))
              /\ at_path [Key part; Key "classes"; Index i; Key "sessions";
                          Index j; Key "day"] reply = Some (JStr (day s))
              /\ at_path [Key part; Key "classes"; Index i; Key "sessions";
                          Index j; Key "time"] reply = Some (JStr (time s))
              /\ at_path [Key part; Key "classes"; Index i; Key "sessions";
                          Index j; Key "maxSignups"] reply
                 = shown_number (maxSignups s)
              /\ at_path [Key part; Key "classes"; Index i; Key "sessions";
                          Index j; Key "price"] reply
                 = shown_number (price s).
Proof.
  intros Hf1 Hf2 Hs Hu. unfold get_classes. rewrite Hf1, Hf2, Hs, Hu.
  eexists. split; [reflexivity|].
  assert (Hpart : forall entry,
             (exists shown,
                 at_path [Key "classes"] (catalog_view entry) = Some (JArr shown)
                 /\ List.length shown = List.length (classes entry))
             /\ forall i j c s,
                  nth_error (classes entry) i = Some c ->
                  nth_error (sessions c) j = Some s ->
                  exists shown,
                    at_path [Key "classes"; Index i; Key "sessions"]
                      (catalog_view entry) = Some (JArr shown)
                    /\ List.length shown = List.length (sessions c)).
  { intros entry. split; [exact (proj1 (catalog_view_arrays entry))|].
    intros i j c s Hc _. exact (proj2 (catalog_view_arrays entry) i c Hc). }
  intros part entry [[= -> ->]|[= -> ->]].
  - split; [exact (proj1 (Hpart signupsEntry))|]. intros i j c s Hc Hsess.
    split; [exact (proj2 (Hpart signupsEntry) i j c s Hc Hsess)|].
    exact (catalog_view_fields signupsEntry i j c s Hc Hsess).
  - split; [exact (proj1 (Hpart upcomingEntry))|]. intros i j c s Hc Hsess.
    split; [exact (proj2 (Hpart upcomingEntry) i j c s Hc Hsess)|].
    exact (catalog_view_fields upcomingEntry i j c s Hc Hsess).
Qed.

(** X10: after a successful signup, [GET /classes] shows the old count plus
    one at every session that passes both filters of the update and the old
    count at every other session, and its [upcoming] part is the same as
    before. *)
Theorem classes_reply_after_signup db f raw db' doc upcomingEntry :
  post_class_signup db f raw = (signup_successful, db') ->
  signups_catalog db = Some doc ->
  head (upcoming db) = Some upcomingEntry ->
  exists reply reply',
    get_classes db no_faults = Json 200 reply
    /\ get_classes db' no_faults = Json 200 reply'
    /\ at_path [Key "upcoming"] reply' = at_path [Key "upcoming"] reply
    /\ forall i j c s,
         nth_error (classes doc) i = Some c ->
         nth_error (sessions c) j = Some s ->
         at_path [Key "signups"; Key "classes"; Index i; Key "sessions";
                  Index j; Key "signees"] reply'
         = Some (count_json
                   (Z.of_nat (List.length (signees s))
                    + (if (name c =? he_decode (Body.className (sanitize raw)))
                          && session_filter (Body.day (sanitize raw))
                               (Body.time (sanitize raw)) s
                       then 1 else 0))).
Proof.
  intros Hok Hdoc Hu.
  apply post_success, register_success in Hok
    as (doc0 & rest & c0 & s0 & Hdb & _ & _ & _ & _ & _ & _ & ->).
  unfold signups_catalog in Hdoc. rewrite Hdb in Hdoc. injection Hdoc as ->.
  unfold get_classes. cbn [no_faults first_call_rejects second_call_rejects
                           set_signups signups upcoming head].
  rewrite Hdb, Hu. cbn [head].
  do 2 eexists. split; [reflexivity|]. split; [reflexivity|].
  split; [reflexivity|].
  intros i j c s Hc Hs.
  set (n := he_decode (Body.className (sanitize raw))).
  set (d := Body.day (sanitize raw)). set (t := Body.time (sanitize raw)).
  set (x := cast_signee (Body.signee (sanitize raw))).
  rewrite <- Z.add_comm.
  destruct (name c =? n) eqn:En.
  - assert (Hc' : nth_error (classes (push_filtered n d t x doc)) i
                  = Some (push_in_class d t x c)).
    { unfold push_filtered. cbn [classes]. rewrite nth_error_map, Hc.
      cbn [option_map]. rewrite En. reflexivity. }
    assert (Hs' : nth_error (sessions (push_in_class d t x c)) j
                  = Some (if session_filter d t s then push_signee x s else s)).
    { unfold push_in_class, push_in_sessions. cbn [sessions].
      rewrite nth_error_map, Hs. reflexivity. }
    change (at_path [Key "classes"; Index i; Key "sessions"; Index j;
                     Key "signees"]
              (catalog_view (push_filtered n d t x doc))
            = Some (count_json
                      ((if true && session_filter d t s then 1 else 0)
                       + Z.of_nat (List.length (signees s))))).
    rewrite (catalog_view_count _ i j _ _ Hc' Hs'). cbn [andb].
    destruct (session_filter d t s); [|reflexivity].
    cbn [push_signee signees]. rewrite length_app. simpl List.length.
    do 2 f_equal. lia.
  - assert (Hc' : nth_error (classes (push_filtered n d t x doc)) i = Some c).
    { unfold push_filtered. cbn [classes]. rewrite nth_error_map, Hc.
      cbn [option_map]. rewrite En. reflexivity. }
    change (at_path [Key "classes"; Index i; Key "sessions"; Index j;
                     Key "signees"]
              (catalog_view (push_filtered n d t x doc))
            = Some (count_json (0 + Z.of_nat (List.length (signees s))))).
    rewrite (catalog_view_count _ i j _ _ Hc' Hs). reflexivity.
Qed.

(** ** What validation guarantees *)

Lemma field_check_nil ok v p m : field_check ok v p m = [] -> ok = true.
Proof. destruct ok; [reflexivity|discriminate]. Qed.

Lemma validation_passes b :
  validationResult b = [] ->
  (forall p v, In (p, v) (text_fields b) -> isLength 1 (max_length p) v = true)
  /\ isMobilePhone (parentPhoneNumber (Body.signee b)) = true.
Proof.
  unfold validationResult. intros E.
  repeat (apply app_eq_nil in E as [?%field_check_nil E]).
  apply field_check_nil in E. split; [|exact E].
  intros p v Hin. simpl in Hin.
  repeat (destruct Hin as [[= <- <-]|Hin]; [assumption|]). destruct Hin.
Qed.

Lemma isLength_bounds lo hi s :
  isLength lo hi s = true -> lo <= counted_length s <= hi.
Proof.
  unfold isLength. rewrite andb_true_iff, !Nat.leb_le. tauto.
Qed.

Lemma escape_length s : List.length s <= List.length (escape s).
Proof.
  induction s as [|c s IH]; [simpl; lia|].
  unfold escape. cbn [flat_map]. fold (escape s). rewrite length_app.
  assert (1 <= List.length (escape_char c)).
  { pose proof (escape_char_not_empty c).
    destruct (escape_char c); [congruence|simpl; lia]. }
  simpl List.length. lia.
Qed.

Lemma text_fields_sanitize raw :
  text_fields (sanitize raw)
  = map (fun pv => (fst pv, escape (trim (snd pv)))) (text_fields raw).
Proof. reflexivity. Qed.

(** X11: in a request that passes validation every text field is not empty
    once trimmed, and it is its escaped form, never shorter than the trimmed
    text, whose length as [isLength] counts it is between 1 and the limit of
    its path (100, 20 or 50): each replaced character counts as its whole
    entity. *)
Theorem valid_fields_are_bounded_after_escape raw p v :
  validationResult (sanitize raw) = [] ->
  In (p, v) (text_fields raw) ->
  trim v <> []
  /\ List.length (trim v) <= List.length (escape (trim v))
  /\ 1 <= counted_length (escape (trim v)) <= max_length p.
Proof.
  intros Hval Hin. apply validation_passes in Hval as [Hall _].
  assert (Hin' : In (p, escape (trim v)) (text_fields (sanitize raw))).
  { rewrite text_fields_sanitize.
    apply (in_map (fun pv => (fst pv, escape (trim (snd pv)))) _ _ Hin). }
  apply Hall, isLength_bounds in Hin'.
  split; [|split; [apply escape_length|exact Hin']].
  intros E. rewrite E in Hin'. cbn in Hin'. lia.
Qed.

(** ** What the route stores *)

Lemma escape_char_free c : free_of_markup (escape_char c) = true.
Proof.
  escape_cases c; try reflexivity.
  unfold free_of_markup, markup_char. cbn [forallb existsb].
  repeat match goal with
         | H : c <> _ |- _ => apply N.eqb_neq in H; rewrite H; clear H
         end.
  reflexivity.
Qed.

Lemma escape_free s : free_of_markup (escape s) = true.
Proof.
  induction s as [|c s IH]; [reflexivity|].
  unfold escape. cbn [flat_map]. fold (escape s).
  unfold free_of_markup in *. rewrite forallb_app, IH, andb_true_r.
  apply escape_char_free.
Qed.

(** X12: for a request that passes validation, the four names handed to the
    update are free of the characters [<], [>], the two quotes, the slash,
    the backslash and the backquote and have a length, as [isLength] counts
    it, between 1 and 50; the signee pushed holds their images under
    [toLowerCase], and the trimmed phone number of the request, which
    [isMobilePhone] accepts. *)
Theorem pushed_signee_is_well_formed raw :
  validationResult (sanitize raw) = [] ->
  (forall v, In v (name_fields (Body.signee (sanitize raw))) ->
             free_of_markup v = true /\ 1 <= counted_length v <= 50)
  /\ name_fields (cast_signee (Body.signee (sanitize raw)))
     = map toLowerCase (name_fields (Body.signee (sanitize raw)))
  /\ parentPhoneNumber (cast_signee (Body.signee (sanitize raw)))
     = trim (parentPhoneNumber (Body.signee raw))
  /\ isMobilePhone (parentPhoneNumber (cast_signee (Body.signee (sanitize raw))))
     = true.
Proof.
  intros Hval. apply validation_passes in Hval as [Hall Hphone].
  split; [|split; [reflexivity|split; [reflexivity|exact Hphone]]].
  assert (H : forall p v,
             In (p, v) (text_fields (sanitize raw)) -> max_length p = 50 ->
             free_of_markup v = true /\ 1 <= counted_length v <= 50).
  { intros p v Hin Hmax. pose proof (Hall p v Hin) as Hlen.
    apply isLength_bounds in Hlen. rewrite Hmax in Hlen. split; [|exact Hlen].
    rewrite text_fields_sanitize in Hin. apply in_map_iff in Hin
      as ([p' v'] & [= _ <-] & _). apply escape_free. }
  intros v Hin. simpl in Hin.
  destruct Hin as [<-|[<-|[<-|[<-|[]]]]].
  - apply (H "signee.childFirstName"); [|reflexivity]. simpl. tauto.
  - apply (H "signee.childLastName"); [|reflexivity]. simpl. tauto.
  - apply (H "signee.parentFirstName"); [|reflexivity]. simpl. tauto.
  - apply (H "signee.parentLastName"); [|reflexivity]. simpl. tauto.
Qed.

(** X13: after any sequence of requests every signee the signups catalog
    stores either was stored before the sequence or is the signee, as cast
    by the schema, of one of the requests of the sequence, and that request
    passed validation. *)
Theorem stored_signees_come_from_valid_requests reqs : forall db doc,
  signups_catalog db = Some doc ->
  exists doc',
    signups_catalog (serve db reqs) = Some doc'
    /\ forall sg,
         In sg (stored_signees doc') ->
         In sg (stored_signees doc)
         \/ exists f raw,
              In (f, raw) reqs
              /\ validationResult (sanitize raw) = []
              /\ sg = cast_signee (Body.signee (sanitize raw)).
Proof. exact (serve_stored_signees reqs). Qed.

(** ** The duplicate test *)

(** X14: the test of line 181 holds of a stored signee exactly when the
    signee's child names are in lowercase and equal the child names of the
    request up to letter case; a stored child name with a capital letter is
    matched by no request. *)
Theorem duplicate_test_matches_lowercase_names_only b sg :
  same_child b sg = true <->
  is_lowercase (childFirstName sg) = true
  /\ is_lowercase (childLastName sg) = true
  /\ toLowerCase (childFirstName sg)
     = toLowerCase (childFirstName (Body.signee b))
  /\ toLowerCase (childLastName sg)
     = toLowerCase (childLastName (Body.signee b)).
Proof.
  unfold same_child, is_lowercase.
  rewrite andb_true_iff, !str_eqb_eq. split.
  - intros [-> ->]. rewrite !toLowerCase_idempotent. auto.
  - intros (H1 & H2 & H3 & H4). split; congruence.
Qed.

(** ** The class name *)

(** X15: when the decoder undoes [escape], the class is looked up under the
    trimmed class name as sent and the session under the escaped day and
    time; a class stored under the name as sent is found, whatever
    characters the name holds. *)
Theorem class_is_looked_up_under_the_name_sent db f raw doc :
  (forall s, he_decode (escape s) = s) ->
  validationResult (sanitize raw) = [] ->
  first_call_rejects f = false ->
  signups_catalog db = Some doc ->
  located_session db (sanitize raw)
  = locate (trim (Body.className raw)) (escape (trim (Body.day raw)))
      (escape (trim (Body.time raw))) doc
  /\ ((exists c, In c (classes doc) /\ name c = trim (Body.className raw)) ->
      fst (post_class_signup db f raw) <> Send 404 "Class not found").
Proof.
  intros Hdec Hval Hf Hdoc.
  assert (Hloc : located_session db (sanitize raw)
                 = locate (trim (Body.className raw))
                     (escape (trim (Body.day raw)))
                     (escape (trim (Body.time raw))) doc).
  { rewrite (located_session_eq _ _ _ Hdoc). cbn [sanitize Body.className
      Body.day Body.time]. rewrite Hdec. reflexivity. }
  split; [exact Hloc|]. intros (c & Hc & Hname).
  rewrite (post_valid _ _ _ Hval). unfold register.
  unfold signups_catalog in Hdoc. rewrite Hf, Hdoc.
  cbn [sanitize Body.className]. rewrite Hdec.
  destruct (find _ (classes doc)) as [c'|] eqn:Hfind.
  - destruct (find _ (sessions c')) as [s|]; [|discriminate].
    destruct (existsb _ (signees s)); [discriminate|].
    destruct (number_le _ _); [discriminate|].
    destruct (second_call_rejects f); discriminate.
  - exfalso. apply (find_none _ _ Hfind) in Hc.
    apply str_eqb_neq in Hc. auto.
Qed.

(** ** A store without catalog *)

(** X16: the route never creates the catalog: with an empty [signups]
    collection no sequence of requests changes the database, and every
    request is answered 400 (validation) or 500. *)
Theorem unseeded_store_stays_unseeded db :
  signups db = [] ->
  (forall reqs, serve db reqs = db)
  /\ forall f raw,
       status (fst (post_class_signup db f raw)) = 400
       \/ status (fst (post_class_signup db f raw)) = 500.
Proof.
  intros Hdb.
  assert (Hpost : forall f raw,
             snd (post_class_signup db f raw) = db
             /\ (status (fst (post_class_signup db f raw)) = 400
                 \/ status (fst (post_class_signup db f raw)) = 500)).
  { intros f raw. unfold post_class_signup.
    destruct (validationResult (sanitize raw)); [|simpl; auto].
    unfold register. rewrite Hdb.
    destruct (first_call_rejects f); simpl; auto. }
  split; [|intros f raw; apply Hpost].
  intros reqs. induction reqs as [|[f raw] reqs IH]; [reflexivity|].
  cbn [serve]. rewrite (proj1 (Hpost f raw)). exact IH.
Qed.

(** ** White space at the ends *)

Lemma first_char_ltrim s a : first_char (ltrim s) = Some a -> is_space a = false.
Proof.
  induction s as [|c s IH]; cbn [ltrim]; [discriminate|].
  destruct (is_space c) eqn:E; [exact IH|]. cbn. intros [= <-]. exact E.
Qed.

Lemma first_char_rtrim s a : first_char (rtrim s) = Some a -> first_char s = Some a.
Proof.
  destruct s as [|c s]; cbn [rtrim]; [discriminate|].
  destruct (rtrim s); [destruct (is_space c)|]; cbn; auto. discriminate.
Qed.

Lemma last_char_rtrim s b : last_char (rtrim s) = Some b -> is_space b = false.
Proof.
  induction s as [|c s IH]; cbn [rtrim]; [discriminate|].
  destruct (rtrim s) as [|c' s'] eqn:R.
  - destruct (is_space c) eqn:E; cbn; [discriminate|]. intros [= <-]. exact E.
  - exact IH.
Qed.

Lemma last_char_cons c s :
  last_char (c :: s)
  = match last_char s with Some b => Some b | None => Some c end.
Proof.
  revert c. induction s as [|c' s IH]; intros c; [reflexivity|].
  change (last_char (c :: c' :: s)) with (last_char (c' :: s)).
  rewrite (IH c'). destruct (last_char s); reflexivity.
Qed.

Lemma last_char_app s1 s2 :
  last_char (s1 ++ s2)
  = match last_char s2 with Some b => Some b | None => last_char s1 end.
Proof.
  induction s1 as [|c s1 IH]; cbn [app].
  - destruct (last_char s2); reflexivity.
  - rewrite !last_char_cons, IH. destruct (last_char s2); reflexivity.
Qed.

(** The first and the last character of an entity, or of a character that
    [escape] keeps, is white space only if the character is. *)
Lemma escape_char_ends c :
  exists a b,
    first_char (escape_char c) = Some a /\ last_char (escape_char c) = Some b
    /\ is_space a = is_space c /\ is_space b = is_space c.
Proof. escape_cases c; do 2 eexists; repeat split. Qed.

Lemma first_char_escape s a :
  first_char (escape s) = Some a ->
  exists c, first_char s = Some c /\ is_space a = is_space c.
Proof.
  destruct s as [|c s]; [discriminate|]. unfold escape. cbn [flat_map].
  destruct (escape_char_ends c) as (a' & _ & Ha & _ & Hsp & _).
  destruct (escape_char c); [discriminate|]. cbn in *.
  intros [= <-]. injection Ha as ->. exists c. auto.
Qed.

Lemma last_char_escape s b :
  last_char (escape s) = Some b ->
  exists c, last_char s = Some c /\ is_space b = is_space c.
Proof.
  revert b. induction s as [|c s IH]; intros b; [discriminate|].
  unfold escape. cbn [flat_map]. fold (escape s).
  rewrite last_char_app, last_char_cons.
  destruct (last_char (escape s)) as [b'|] eqn:E.
  - intros [= <-]. destruct (IH b' eq_refl) as (c' & -> & Hsp). exists c'. auto.
  - destruct (escape_char_ends c) as (_ & b' & _ & Hb & _ & Hsp).
    rewrite Hb. intros [= <-].
    destruct s as [|c' s]; [exists c; auto|].
    exfalso. unfold escape in E. cbn [flat_map] in E.
    rewrite last_char_app in E.
    destruct (last_char (flat_map escape_char s)); [discriminate|].
    destruct (escape_char_ends c') as (_ & b'' & _ & Hb' & _).
    congruence.
Qed.

Lemma clean_has_no_outer_space v :
  trimmed (escape (trim v)) = true
  /\ trimmed (toLowerCase (escape (trim v))) = true.
Proof.
  assert (H : trimmed (escape (trim v)) = true).
  { unfold trimmed.
    destruct (first_char (escape (trim v))) as [a|] eqn:Ha; [|reflexivity].
    destruct (last_char (escape (trim v))) as [b|] eqn:Hb; [|reflexivity].
    apply first_char_escape in Ha as (c & Hc & ->).
    unfold trim in Hc. apply first_char_rtrim in Hc.
    rewrite (first_char_ltrim _ _ Hc).
    apply last_char_escape in Hb as (c' & Hc' & ->).
    unfold trim in Hc'. rewrite (last_char_rtrim _ _ Hc'). reflexivity. }
  split; [exact H|]. apply toLowerCase_trimmed. exact H.
Qed.

(** X17: the seven text fields of a request, as the handler receives and
    compares them, and the four names of the signee, as the update stores
    them, neither start nor end with white space. *)
Theorem sanitized_fields_have_no_outer_space raw :
  (forall p v, In (p, v) (text_fields (sanitize raw)) -> trimmed v = true)
  /\ (forall v, In v (name_fields (cast_signee (Body.signee (sanitize raw)))) ->
                trimmed v = true).
Proof.
  split.
  - intros p v Hin. rewrite text_fields_sanitize in Hin.
    apply in_map_iff in Hin as ([p' v'] & [= _ <-] & _).
    apply clean_has_no_outer_space.
  - intros v Hin. simpl in Hin.
    destruct Hin as [<-|[<-|[<-|[<-|[]]]]]; apply clean_has_no_outer_space.
Qed.

End Properties.
(** * The properties on the worked example *)

#[local] Existing Instance example_libraries.

(** The entity decoder undoes [escape]: a class name reaches the lookup of
    line 168 as it was sent, trimmed. *)
Lemma decode_entities_escape s : decode_entities (escape s) = s.
Proof.
  unfold decode_entities, escape.
  induction s as [|c s IH]; [reflexivity|].
  cbn [flat_map]. remember (flat_map escape_char s) as rest eqn:E.
  clear E. subst s.
  escape_cases c; try reflexivity.
  assert (E : (38 =? c)%N = false) by (apply N.eqb_neq; congruence).
  cbn -[N.eqb]. rewrite E. reflexivity.
Qed.

(** Without the override of line 93 the reply would carry the signees. *)
Example session_toObject_exposes :
  exposes_signee (JObj (session_toObject (monday 2 [stored ana]))) = true.
Proof. reflexivity. Qed.

(** The scenario of the specification: Ana Lee is accepted, "ana lee" is a
    duplicate, Ben Kim takes the last place, Cy Fox finds the session full. *)
Example specification_scenario :
  let db1 := gym [monday 2 [stored ana]] in
  let db2 := gym [monday 2 [stored ana; stored ben]] in
  post_class_signup opening_day no_faults (monday_signup ana)
  = (signup_successful, db1)
  /\ post_class_signup db1 no_faults (monday_signup (child "ana" "lee"))
     = (Send 400 "Already signed up", db1)
  /\ post_class_signup db1 no_faults (monday_signup ben)
     = (signup_successful, db2)
  /\ post_class_signup db2 no_faults (monday_signup cy)
     = (Send 400 "Session is full", db2).
Proof. repeat split. Qed.

(** What the example instance of [toLowerCase] stores for Ana Lee. *)
Example stored_ana :
  stored ana
  = {| childFirstName := js "ana"; childLastName := js "lee";
       parentFirstName := js "pat"; parentLastName := js "lee";
       parentPhoneNumber := js "4155552671" |}.
Proof. reflexivity. Qed.

Lemma C1_witness :
  signups_catalog opening_day = Some (catalog [tumbling [monday 2 []]])
  /\ catalog_within_capacity (catalog [tumbling [monday 2 []]]) = true
  /\ catalog_whole_capacities (catalog [tumbling [monday 2 []]]) = true
  /\ NoDup (session_keys (catalog [tumbling [monday 2 []]]))
  /\ exists doc',
       signups_catalog
         (serve opening_day
            [(no_faults, monday_signup ana); (no_faults, monday_signup ana_again);
             (no_faults, monday_signup ben); (no_faults, monday_signup cy)])
       = Some doc'
       /\ forall c s, In c (classes doc') -> In s (sessions c) ->
                      within_capacity s = true.
Proof.
  assert (Hnd : NoDup (session_keys (catalog [tumbling [monday 2 []]]))).
  { simpl. constructor; [simpl; tauto|constructor]. }
  split; [reflexivity|]. split; [reflexivity|]. split; [reflexivity|].
  split; [exact Hnd|].
  apply (C1_capacity_kept_when_sessions_unique opening_day _
           (catalog [tumbling [monday 2 []]])).
  - reflexivity.
  - reflexivity.
  - reflexivity.
  - exact Hnd.
Defined.

(** C1, as stated, fails, in two ways.  With two sessions of one class on
    the same day and time, the catalog is within capacity, the request
    succeeds, and the second session, which the capacity test never saw,
    ends with two signees for one place.  With a capacity of one and a half
    and distinct sessions, the session holds one signee, the test of line
    190 lets a second one in, and the session ends with two. *)
Lemma C1_counterexample :
  (exists doc db' doc',
      signups_catalog twin_sessions = Some doc
      /\ catalog_within_capacity doc = true
      /\ post_class_signup twin_sessions no_faults (monday_signup ana)
         = (signup_successful, db')
      /\ signups_catalog db' = Some doc'
      /\ In (monday_twin 1 [stored cy; stored ana])
            (flat_map sessions (classes doc'))
      /\ within_capacity (monday_twin 1 [stored cy; stored ana]) = false)
  /\ (exists doc db' doc',
         signups_catalog one_and_a_half = Some doc
         /\ catalog_within_capacity doc = true
         /\ NoDup (session_keys doc)
         /\ post_class_signup one_and_a_half no_faults (monday_signup ana)
            = (signup_successful, db')
         /\ signups_catalog db' = Some doc'
         /\ In (monday (3 # 2) [stored cy; stored ana])
               (flat_map sessions (classes doc'))
         /\ within_capacity (monday (3 # 2) [stored cy; stored ana]) = false).
Proof.
  split.
  - do 3 eexists. split; [reflexivity|]. split; [reflexivity|].
    split; [reflexivity|]. split; [reflexivity|]. split; [|reflexivity].
    simpl. right. left. reflexivity.
  - do 3 eexists. split; [reflexivity|]. split; [reflexivity|].
    split; [simpl; constructor; [simpl; tauto|constructor]|].
    split; [reflexivity|]. split; [reflexivity|]. split; [|reflexivity].
    simpl. left. reflexivity.
Qed.

Lemma C2_witness :
  post_class_signup opening_day no_faults (monday_signup ana)
  = (signup_successful, gym [monday 2 [stored ana]])
  /\ post_class_signup (gym [monday 2 [stored ana]]) no_faults
       (monday_signup ana_again)
     = (Send 400 "Already signed up", gym [monday 2 [stored ana]])
  /\ exists s,
       located_session (gym [monday 2 [stored ana]])
         (sanitize (monday_signup ana_again)) = Some s
       /\ List.length (filter (same_child (sanitize (monday_signup ana_again)))
                         (signees s)) = 1.
Proof.
  split; [reflexivity|].
  apply (C2_second_signup_is_duplicate opening_day no_faults
           (monday_signup ana) _ no_faults (monday_signup ana_again));
    reflexivity.
Defined.

(** C2, as stated, fails: the two requests name the same child up to letter
    case, yet both succeed and the session holds the child twice.  The
    capital sigma of the first request stands before the entity that
    [escape] writes for the apostrophe, so [toLowerCase] makes it a final
    sigma; the small sigma of the second request stays as it is. *)
Lemma C2_counterexample :
  toLowerCase (childFirstName capital_sigma)
  = toLowerCase (childFirstName small_sigma)
  /\ toLowerCase (childLastName capital_sigma)
     = toLowerCase (childLastName small_sigma)
  /\ exists db1 db2 s,
       post_class_signup opening_day no_faults (monday_signup capital_sigma)
       = (signup_successful, db1)
       /\ post_class_signup db1 no_faults (monday_signup small_sigma)
          = (signup_successful, db2)
       /\ located_session db2 (sanitize (monday_signup small_sigma)) = Some s
       /\ List.length (signees s) = 2
       /\ fst (post_class_signup db1 no_faults (monday_signup small_sigma))
          <> Send 400 "Already signed up".
Proof.
  split; [reflexivity|]. split; [reflexivity|].
  do 3 eexists. split; [reflexivity|]. split; [reflexivity|].
  split; [reflexivity|]. split; [reflexivity|]. discriminate.
Qed.

(** C3, as stated, fails: the session is full and the request is refused,
    but as a duplicate. *)
Lemma C3_counterexample :
  exists s,
    located_session (gym [monday 1 [stored ana]])
      (sanitize (monday_signup ana)) = Some s
    /\ session_full s = true
    /\ post_class_signup (gym [monday 1 [stored ana]]) no_faults
         (monday_signup ana)
       = (Send 400 "Already signed up", gym [monday 1 [stored ana]])
    /\ fst (post_class_signup (gym [monday 1 [stored ana]]) no_faults
              (monday_signup ana))
       <> Send 400 "Session is full".
Proof.
  eexists. split; [reflexivity|]. split; [reflexivity|].
  split; [reflexivity|]. discriminate.
Qed.

Lemma C3_witness :
  located_session (gym [monday 2 [stored ana; stored ben]])
    (sanitize (monday_signup cy))
  = Some (monday 2 [stored ana; stored ben])
  /\ post_class_signup (gym [monday 2 [stored ana; stored ben]])
       no_faults (monday_signup cy)
     = (Send 400 "Session is full", gym [monday 2 [stored ana; stored ben]]).
Proof.
  split; [reflexivity|].
  exact (C3_full_session_refused
           (gym [monday 2 [stored ana; stored ben]]) no_faults
           (monday_signup cy) (monday 2 [stored ana; stored ben])
           eq_refl eq_refl eq_refl eq_refl).
Defined.

Lemma C4_witness :
  post_class_signup opening_day no_faults
    (signup "Vault" "Mon" "4:00pm" ana)
  = (Send 404 "Class not found", opening_day)
  /\ post_class_signup opening_day no_faults
       (signup "Tumbling" "Tue" "4:00pm" ana)
     = (Send 404 "Session not found", opening_day).
Proof.
  split.
  - apply (C4_class_or_session_not_found opening_day no_faults
             (signup "Vault" "Mon" "4:00pm" ana)
             (catalog [tumbling [monday 2 []]]));
      [reflexivity|reflexivity|reflexivity|].
    intros c [<-|[]]. discriminate.
  - apply (C4_class_or_session_not_found opening_day no_faults
             (signup "Tumbling" "Tue" "4:00pm" ana)
             (catalog [tumbling [monday 2 []]]))
      with (c := tumbling [monday 2 []]);
      [reflexivity|reflexivity|reflexivity|reflexivity|].
    intros s [<-|[]] [Hd _]. discriminate.
Defined.

Lemma C5_witness :
  snd (post_class_signup opening_day no_faults
         (signup "Vault" "Mon" "4:00pm" ana)) = opening_day
  /\ exists doc doc' rest,
       signups opening_day = doc :: rest
       /\ signups (snd (post_class_signup opening_day no_faults
                          (monday_signup ana))) = doc' :: rest
       /\ doc' <> doc
       /\ upcoming (snd (post_class_signup opening_day no_faults
                           (monday_signup ana))) = upcoming opening_day
       /\ events (snd (post_class_signup opening_day no_faults
                         (monday_signup ana))) = events opening_day.
Proof.
  split.
  - apply (proj1 (C5_mutation_only_on_success opening_day no_faults
                    (signup "Vault" "Mon" "4:00pm" ana))).
    discriminate.
  - apply (proj2 (C5_mutation_only_on_success opening_day no_faults
                    (monday_signup ana))).
    reflexivity.
Defined.

Lemma C6_witness :
  (exists s s' sg,
      located_session opening_day (sanitize (monday_signup ana)) = Some s
      /\ located_session (gym [monday 2 [stored ana]])
           (sanitize (monday_signup ana)) = Some s'
      /\ signees s' = signees s ++ [sg]
      /\ stored_for (sanitize (monday_signup ana)) sg
      /\ signee_lowercase sg = true)
  /\ exists doc',
       signups_catalog
         (serve opening_day
            [(no_faults, monday_signup ana); (no_faults, monday_signup ben)])
       = Some doc'
       /\ forall sg,
            In sg (stored_signees doc') ->
            In sg (stored_signees (catalog [tumbling [monday 2 []]]))
            \/ exists f raw,
                 In (f, raw)
                    [(no_faults, monday_signup ana);
                     (no_faults, monday_signup ben)]
                 /\ validationResult (sanitize raw) = []
                 /\ stored_for (sanitize raw) sg
                 /\ signee_lowercase sg = true.
Proof.
  split.
  - apply (proj1 (C6_names_stored_in_lowercase opening_day) no_faults
             (monday_signup ana) (gym [monday 2 [stored ana]])).
    reflexivity.
  - apply (proj2 (C6_names_stored_in_lowercase opening_day)
             [(no_faults, monday_signup ana); (no_faults, monday_signup ben)]
             (catalog [tumbling [monday 2 []]])).
    reflexivity.
Defined.

(** C6, as stated, fails in its second half: a signee that the catalog held
    with capital letters before the requests is still there, as it was,
    after a successful registration. *)
Lemma C6_counterexample :
  exists db' doc',
    post_class_signup seeded no_faults (monday_signup ben)
    = (signup_successful, db')
    /\ signups_catalog db' = Some doc'
    /\ In ana (stored_signees doc')
    /\ childFirstName ana = js "Ana"
    /\ signee_lowercase ana = false.
Proof.
  do 2 eexists. split; [reflexivity|]. split; [reflexivity|].
  split; [left; reflexivity|]. split; reflexivity.
Qed.

Lemma C7_witness :
  exists reply,
    get_classes (gym [monday 2 [stored ana; stored ben]]) no_faults
    = Json 200 reply
    /\ at_path [Key "signups"; Key "classes"; Index 0; Key "name"] reply
       = Some (JStr (js "Tumbling"))
    /\ at_path [Key "signups"; Key "classes"; Index 0; Key "sessions"; Index 0;
                Key "maxSignups"] reply = Some (JNum 2)
    /\ at_path [Key "signups"; Key "classes"; Index 0; Key "sessions"; Index 0;
                Key "signees"] reply = Some (count_json 2)
    /\ exposes_signee reply = false.
Proof.
  destruct (C7_classes_reply_counts_signees
              (gym [monday 2 [stored ana; stored ben]]) no_faults
              (catalog [tumbling [monday 2 [stored ana; stored ben]]])
              (catalog []) eq_refl eq_refl eq_refl eq_refl)
    as (reply & Hreply & Hparts & Hhide).
  exists reply. split; [exact Hreply|].
  destruct (Hparts "signups"
              (catalog [tumbling [monday 2 [stored ana; stored ben]]])
              (or_introl eq_refl)) as (_ & _ & Hpos).
  destruct (Hpos 0 0 (tumbling [monday 2 [stored ana; stored ben]])
              (monday 2 [stored ana; stored ben]) eq_refl eq_refl)
    as (_ & _ & _ & Hname & _ & _ & _ & Hmax & _ & Hcount).
  split; [exact Hname|]. split; [exact Hmax|]. split; [exact Hcount|exact Hhide].
Defined.

Lemma C8_witness :
  exists evs,
    get_events calendar no_faults = Json 200 evs
    /\ Permutation (events calendar) evs
    /\ forall i e1 e2,
         nth_error evs i = Some e1 -> nth_error evs (S i) = Some e2 ->
         (Event.date e1 <= Event.date e2)%Z.
Proof.
  apply (C8_events_ascending_by_date calendar no_faults). reflexivity.
Defined.

(** C9, as stated, fails: the day is altered by [escape], a session of the
    class stores the day and time as sent, and the request succeeds, on the
    session that stores the escaped day. *)
Lemma C9_counterexample :
  escape (trim (Body.day two_days_signup)) <> trim (Body.day two_days_signup)
  /\ In (two_days "b1" "Mon & Wed")
        (sessions (tumbling [two_days "b1" "Mon & Wed";
                             two_days "b2" "Mon &amp; Wed"]))
  /\ day (two_days "b1" "Mon & Wed") = Body.day two_days_signup
  /\ time (two_days "b1" "Mon & Wed") = Body.time two_days_signup
  /\ post_class_signup
       (gym [two_days "b1" "Mon & Wed"; two_days "b2" "Mon &amp; Wed"])
       no_faults two_days_signup
     = (signup_successful,
        gym [two_days "b1" "Mon & Wed";
             push_signee (stored ana) (two_days "b2" "Mon &amp; Wed")])
  /\ fst (post_class_signup
            (gym [two_days "b1" "Mon & Wed"; two_days "b2" "Mon &amp; Wed"])
            no_faults two_days_signup)
     <> Send 404 "Session not found".
Proof.
  split; [discriminate|]. split; [left; reflexivity|].
  split; [reflexivity|]. split; [reflexivity|].
  split; [reflexivity|discriminate].
Qed.

Lemma C9_witness :
  ((forall s,
       day s = js "Mon & Wed" -> time s = js "4:00pm" ->
       find_session (Body.day (sanitize two_days_signup))
         (Body.time (sanitize two_days_signup))
         (tumbling [two_days "b1" "Mon & Wed"])
       <> Some s)
   /\ post_class_signup (gym [two_days "b1" "Mon & Wed"]) no_faults
        two_days_signup
      = (Send 404 "Session not found", gym [two_days "b1" "Mon & Wed"]))
  /\ exists s,
       find_session (Body.day (sanitize two_days_signup))
         (Body.time (sanitize two_days_signup))
         (tumbling [two_days "b1" "Mon & Wed"; two_days "b2" "Mon &amp; Wed"])
       = Some s
       /\ day s = js "Mon &amp; Wed"
       /\ post_class_signup
            (gym [two_days "b1" "Mon & Wed"; two_days "b2" "Mon &amp; Wed"])
            no_faults two_days_signup
          = (signup_successful,
             gym [two_days "b1" "Mon & Wed";
                  push_signee (stored ana) (two_days "b2" "Mon &amp; Wed")]).
Proof.
  assert (Halt : escape (trim (Body.day two_days_signup))
                 <> trim (Body.day two_days_signup)
                 \/ escape (trim (Body.time two_days_signup))
                    <> trim (Body.time two_days_signup)).
  { left. discriminate. }
  split.
  - destruct (@C9_lookup_uses_escaped_day_and_time example_libraries
                (gym [two_days "b1" "Mon & Wed"]) no_faults two_days_signup
                (catalog [tumbling [two_days "b1" "Mon & Wed"]])
                (tumbling [two_days "b1" "Mon & Wed"])
                eq_refl eq_refl eq_refl eq_refl Halt) as (Hraw & Hnone & _).
    split; [exact Hraw|]. apply Hnone.
    intros s [<-|[]] [Hd _]. discriminate.
  - destruct (@C9_lookup_uses_escaped_day_and_time example_libraries
                (gym [two_days "b1" "Mon & Wed"; two_days "b2" "Mon &amp; Wed"])
                no_faults two_days_signup
                (catalog [tumbling [two_days "b1" "Mon & Wed";
                                    two_days "b2" "Mon &amp; Wed"]])
                (tumbling [two_days "b1" "Mon & Wed";
                           two_days "b2" "Mon &amp; Wed"])
                eq_refl eq_refl eq_refl eq_refl Halt) as (_ & _ & Hsome).
    destruct Hsome as (s & Hfind & _ & Hd & _ & Hpost).
    + exists (two_days "b2" "Mon &amp; Wed").
      split; [right; left; reflexivity|]. split; reflexivity.
    + exists s. split; [exact Hfind|]. split; [exact Hd|].
      rewrite Hpost. injection Hfind as <-. reflexivity.
Defined.

Lemma C10_witness :
  exists doc doc' rest,
    signups twin_sessions = doc :: rest
    /\ signups (gym [monday 2 [stored ana];
                     monday_twin 1 [stored cy; stored ana]])
       = doc' :: rest
    /\ forall i j c s,
         nth_error (classes doc) i = Some c ->
         nth_error (sessions c) j = Some s ->
         exists c',
           nth_error (classes doc') i = Some c'
           /\ nth_error (sessions c') j =
                Some (if (name c =? he_decode
                                      (Body.className (sanitize (monday_signup ana))))
                         && session_filter
                              (Body.day (sanitize (monday_signup ana)))
                              (Body.time (sanitize (monday_signup ana))) s
                      then push_signee
                             (cast_signee
                                (Body.signee (sanitize (monday_signup ana)))) s
                      else s).
Proof.
  apply (C10_push_reaches_every_match twin_sessions no_faults
           (monday_signup ana)).
  reflexivity.
Defined.

(** * The further properties on the worked example *)

(** A session without [maxSignups] is never full: the third child is
    accepted. *)
Lemma signup_succeeds_exactly_when_witness :
  session_full unbounded = false
  /\ exists db',
       post_class_signup (gym [unbounded]) no_faults (monday_signup ana)
       = (signup_successful, db').
Proof.
  split; [reflexivity|].
  apply (proj2 (proj1 (@signup_succeeds_exactly_when example_libraries
                         (gym [unbounded]) no_faults (monday_signup ana)))).
  split; [reflexivity|]. split; [reflexivity|]. split; [reflexivity|].
  exists unbounded. split; [reflexivity|]. split; reflexivity.
Defined.

Lemma blank_field_is_reported_witness :
  exists errs,
    In (JObj [("type", JStr (js "field")); ("value", JStr []);
              ("msg", JStr (js "Invalid value")); ("path", JStr (js "day"));
              ("location", JStr (js "body"))]) errs
    /\ forall db f,
         post_class_signup db f (signup "Tumbling" "   " "4:00pm" ana)
         = (Json 400 (JObj [("errors", JArr errs)]), db).
Proof.
  apply (@blank_field_is_reported example_libraries
           (signup "Tumbling" "   " "4:00pm" ana) "day" (js "   ")).
  - simpl. tauto.
  - reflexivity.
Defined.

Lemma requests_for_different_sessions_commute_witness :
  fst (post_class_signup
         (snd (post_class_signup family_gym no_faults (monday_signup ana)))
         no_faults family_signup)
  = fst (post_class_signup family_gym no_faults family_signup)
  /\ fst (post_class_signup
            (snd (post_class_signup family_gym no_faults family_signup))
            no_faults (monday_signup ana))
     = fst (post_class_signup family_gym no_faults (monday_signup ana))
  /\ snd (post_class_signup
            (snd (post_class_signup family_gym no_faults (monday_signup ana)))
            no_faults family_signup)
     = snd (post_class_signup
              (snd (post_class_signup family_gym no_faults family_signup))
              no_faults (monday_signup ana)).
Proof.
  apply (@requests_for_different_sessions_commute example_libraries
           family_gym no_faults (monday_signup ana) no_faults family_signup).
  vm_compute. discriminate.
Defined.

Lemma full_session_never_changes_witness :
  located_session
    (serve (gym [monday 2 [stored ana; stored ben]])
       [(no_faults, monday_signup cy); (no_faults, monday_signup ana);
        (no_faults, signup "Vault" "Mon" "4:00pm" cy)])
    (sanitize (monday_signup cy))
  = Some (monday 2 [stored ana; stored ben]).
Proof.
  apply (@full_session_never_changes example_libraries).
  - reflexivity.
  - reflexivity.
Defined.

Lemma stored_catalog_only_grows_witness :
  exists doc',
    signups_catalog
      (serve opening_day
         [(no_faults, monday_signup ana); (no_faults, monday_signup ben)])
    = Some doc'
    /\ catalog_extends (catalog [tumbling [monday 2 []]]) doc'.
Proof.
  apply (@stored_catalog_only_grows example_libraries opening_day).
  reflexivity.
Defined.

Lemma no_child_is_stored_twice_witness :
  exists doc',
    signups_catalog
      (serve opening_day
         [(no_faults, monday_signup ana); (no_faults, monday_signup ana_again)])
    = Some doc'
    /\ no_child_twice doc'.
Proof.
  apply (@no_child_is_stored_twice example_libraries opening_day _
           (catalog [tumbling [monday 2 []]])).
  - reflexivity.
  - simpl. constructor; [simpl; tauto|constructor].
  - intros c s [<-|[]] [<-|[]]. constructor.
Defined.

Lemma success_stores_one_signee_per_matching_session_witness :
  exists doc',
    signups_catalog (gym [monday 2 [stored ana];
                         monday_twin 1 [stored cy; stored ana]])
    = Some doc'
    /\ List.length (stored_signees doc')
       = List.length (stored_signees
                        (catalog [tumbling [monday 2 [];
                                            monday_twin 1 [stored cy]]]))
         + count_occ key_eq_dec
             (session_keys (catalog [tumbling [monday 2 [];
                                               monday_twin 1 [stored cy]]]))
             (body_key (sanitize (monday_signup ana)))
    /\ 1 <= count_occ key_eq_dec
              (session_keys (catalog [tumbling [monday 2 [];
                                                monday_twin 1 [stored cy]]]))
              (body_key (sanitize (monday_signup ana)))
    /\ (NoDup (session_keys (catalog [tumbling [monday 2 [];
                                               monday_twin 1 [stored cy]]])) ->
        List.length (stored_signees doc')
        = S (List.length (stored_signees
                            (catalog [tumbling [monday 2 [];
                                                monday_twin 1 [stored cy]]])))).
Proof.
  apply (@success_stores_one_signee_per_matching_session example_libraries
           twin_sessions no_faults (monday_signup ana)).
  - reflexivity.
  - reflexivity.
Defined.

Lemma classes_reply_keeps_stored_fields_witness :
  exists reply,
    get_classes opening_day no_faults = Json 200 reply
    /\ at_path [Key "signups"; Key "classes"; Index 0; Key "name"] reply
       = Some (JStr (js "Tumbling"))
    /\ at_path [Key "signups"; Key "classes"; Index 0; Key "sessions"; Index 0;
                Key "maxSignups"] reply = Some (JNum 2).
Proof.
  destruct (classes_reply_keeps_stored_fields opening_day no_faults
              (catalog [tumbling [monday 2 []]]) (catalog [])
              eq_refl eq_refl eq_refl eq_refl) as (reply & Hreply & Hall).
  exists reply. split; [exact Hreply|].
  destruct (Hall "signups" (catalog [tumbling [monday 2 []]])
              (or_introl eq_refl)) as [_ Hpos].
  destruct (Hpos 0 0 (tumbling [monday 2 []]) (monday 2 []) eq_refl eq_refl)
    as (_ & Hname & _ & _ & _ & Hmax & _).
  split; [exact Hname|exact Hmax].
Defined.

Lemma classes_reply_after_signup_witness :
  exists reply reply',
    get_classes twin_sessions no_faults = Json 200 reply
    /\ get_classes (gym [monday 2 [stored ana];
                         monday_twin 1 [stored cy; stored ana]]) no_faults
       = Json 200 reply'
    /\ at_path [Key "signups"; Key "classes"; Index 0; Key "sessions"; Index 0;
                Key "signees"] reply' = Some (count_json 1)
    /\ at_path [Key "signups"; Key "classes"; Index 0; Key "sessions"; Index 1;
                Key "signees"] reply' = Some (count_json 2).
Proof.
  destruct (@classes_reply_after_signup example_libraries twin_sessions
              no_faults (monday_signup ana) _
              (catalog [tumbling [monday 2 []; monday_twin 1 [stored cy]]])
              (catalog []) eq_refl eq_refl eq_refl)
    as (reply & reply' & Hreply & Hreply' & _ & Hcount).
  exists reply, reply'. split; [exact Hreply|]. split; [exact Hreply'|]. split.
  - exact (Hcount 0 0 (tumbling [monday 2 []; monday_twin 1 [stored cy]])
             (monday 2 []) eq_refl eq_refl).
  - exact (Hcount 0 1 (tumbling [monday 2 []; monday_twin 1 [stored cy]])
             (monday_twin 1 [stored cy]) eq_refl eq_refl).
Defined.

Lemma valid_fields_are_bounded_after_escape_witness :
  trim (js "Mon & Wed") <> []
  /\ List.length (trim (js "Mon & Wed"))
     <= List.length (escape (trim (js "Mon & Wed")))
  /\ 1 <= counted_length (escape (trim (js "Mon & Wed"))) <= max_length "day".
Proof.
  apply (@valid_fields_are_bounded_after_escape example_libraries
           two_days_signup "day" (js "Mon & Wed")).
  - reflexivity.
  - simpl. tauto.
Defined.

Lemma pushed_signee_is_well_formed_witness :
  (forall v, In v (name_fields (Body.signee (sanitize family_signup))) ->
             free_of_markup v = true /\ 1 <= counted_length v <= 50)
  /\ name_fields (cast_signee (Body.signee (sanitize family_signup)))
     = map toLowerCase (name_fields (Body.signee (sanitize family_signup)))
  /\ parentPhoneNumber (cast_signee (Body.signee (sanitize family_signup)))
     = trim (parentPhoneNumber (Body.signee family_signup))
  /\ isMobilePhone
       (parentPhoneNumber (cast_signee (Body.signee (sanitize family_signup))))
     = true.
Proof.
  apply (@pushed_signee_is_well_formed example_libraries family_signup).
  reflexivity.
Defined.

Lemma stored_signees_come_from_valid_requests_witness :
  exists doc',
    signups_catalog
      (serve opening_day
         [(no_faults, monday_signup ana); (no_faults, monday_signup ben)])
    = Some doc'
    /\ forall sg,
         In sg (stored_signees doc') ->
         In sg (stored_signees (catalog [tumbling [monday 2 []]]))
         \/ exists f raw,
              In (f, raw)
                 [(no_faults, monday_signup ana); (no_faults, monday_signup ben)]
              /\ validationResult (sanitize raw) = []
              /\ sg = cast_signee (Body.signee (sanitize raw)).
Proof.
  apply (@stored_signees_come_from_valid_requests example_libraries
           [(no_faults, monday_signup ana); (no_faults, monday_signup ben)]
           opening_day).
  reflexivity.
Defined.

Lemma class_is_looked_up_under_the_name_sent_witness :
  located_session family_gym (sanitize family_signup)
  = locate (trim (Body.className family_signup))
      (escape (trim (Body.day family_signup)))
      (escape (trim (Body.time family_signup)))
      (catalog [tumbling [monday 2 []]; parent_and_child [monday_twin 1 []]])
  /\ ((exists c,
          In c (classes (catalog [tumbling [monday 2 []];
                                  parent_and_child [monday_twin 1 []]]))
          /\ name c = trim (Body.className family_signup)) ->
      fst (post_class_signup family_gym no_faults family_signup)
      <> Send 404 "Class not found").
Proof.
  apply (@class_is_looked_up_under_the_name_sent example_libraries
           family_gym no_faults family_signup).
  - exact decode_entities_escape.
  - reflexivity.
  - reflexivity.
  - reflexivity.
Defined.

Lemma unseeded_store_stays_unseeded_witness :
  (forall reqs, serve calendar reqs = calendar)
  /\ forall f raw,
       status (fst (post_class_signup calendar f raw)) = 400
       \/ status (fst (post_class_signup calendar f raw)) = 500.
Proof.
  apply (@unseeded_store_stays_unseeded example_libraries calendar).
  reflexivity.
Defined.

